(** * Breast-cancer detection backend: risk scoring, stores and orchestration

    A shallow embedding of [backend/server.py].  Python [int] is [Z], [str]
    is [string] (the UTF-8 bytes of the text), [Optional[T]] is [option T],
    a pydantic model is a [Record], a dumped model or a stored document is a
    finite map from field names to values, and a collection of the document
    store is the list of its documents in insertion order. *)

From Stdlib Require Import ZArith Lia List Bool Ascii String DecimalString.
From stdpp Require Import gmap strings list sorting.

Local Open Scope string_scope.
Local Open Scope Z_scope.

(** ** Python built-ins used by the handlers *)

Module Py.

(** [needle in hay] on [str]. *)
Fixpoint contains (needle hay : string) : bool :=
  String.prefix needle hay
  || match hay with
     | EmptyString => false
     | String _ rest => contains needle rest
     end.

(** [needle] occurs in [hay]: some text precedes it and some follows. *)
Definition occurs (needle hay : string) : Prop :=
  exists before after, hay = (before ++ needle ++ after)%string.

(** [str(n)] for an [int], as an f-string renders it. *)
Definition str_of_int (n : Z) : string :=
  NilZero.string_of_int (Z.to_int n).

(** [s[:n]] for a non-negative [n]. *)
Fixpoint slice_to (n : nat) (s : string) : string :=
  match n, s with
  | S n', String c rest => String c (slice_to n' rest)
  | _, _ => EmptyString
  end.

(** Truth value of an [Optional[int]] and of an [Optional[str]]: [None], [0]
    and the empty string are false. *)
Definition truthy_int (v : option Z) : bool :=
  match v with
  | Some n => negb (n =? 0)
  | None => false
  end.

Definition truthy_str (v : option string) : bool :=
  match v with
  | Some s => negb (String.eqb s "")
  | None => false
  end.

(** ['Yes' if b else 'No'] *)
Definition yes_no (b : bool) : string := if b then "Yes" else "No".

(** The line feed of a triple-quoted literal. *)
Definition nl : string := String (ascii_of_nat 10) EmptyString.

(** [str.lower] restricted to the ASCII letters; the handlers take the
    runtime's [lower] as a parameter and this is its ASCII instance. *)
Definition ascii_lower_char (c : ascii) : ascii :=
  let n := nat_of_ascii c in
  if (Nat.leb 65 n && Nat.leb n 90)%bool then ascii_of_nat (n + 32) else c.

Fixpoint ascii_lower (s : string) : string :=
  match s with
  | EmptyString => EmptyString
  | String c rest => String (ascii_lower_char c) (ascii_lower rest)
  end.

End Py.

(** ** [datetime] values in UTC and their ISO 8601 text *)

Module Datetime.

(** An aware [datetime] whose [tzinfo] is [timezone.utc], which is what
    [datetime.now(timezone.utc)] returns. *)
Record datetime := mkDatetime {
  year : Z;
  month : Z;
  day : Z;
  hour : Z;
  minute : Z;
  second : Z;
  microsecond : Z
}.

(** The ranges the [datetime] constructor enforces (the day is bounded by
    31 here; the length of the month plays no part below). *)
Definition valid (d : datetime) : Prop :=
  1 <= year d <= 9999 /\ 1 <= month d <= 12 /\ 1 <= day d <= 31 /\
  0 <= hour d <= 23 /\ 0 <= minute d <= 59 /\ 0 <= second d <= 59 /\
  0 <= microsecond d <= 999999.

Definition digit (n : Z) : ascii := ascii_of_nat (48 + Z.to_nat n).

(** [n] in decimal, zero-padded to [w] digits ([%0wd]). *)
Fixpoint pad (w : nat) (n : Z) : string :=
  match w with
  | O => EmptyString
  | S w' => pad w' (n / 10) ++ String (digit (n mod 10)) EmptyString
  end.

(** [d.isoformat()]: the fraction is left out when [microsecond] is 0, and
    the UTC offset is always [+00:00]. *)
Definition isoformat (d : datetime) : string :=
  pad 4 (year d) ++ "-" ++ pad 2 (month d) ++ "-" ++ pad 2 (day d) ++ "T"
  ++ pad 2 (hour d) ++ ":" ++ pad 2 (minute d) ++ ":" ++ pad 2 (second d)
  ++ (if microsecond d =? 0 then "" else "." ++ pad 6 (microsecond d))
  ++ "+00:00".

(** Chronological order: the fields compared from the most significant. *)
Definition key (d : datetime) : list Z :=
  [year d; month d; day d; hour d; minute d; second d; microsecond d].

Fixpoint lex_compare (a b : list Z) : comparison :=
  match a, b with
  | [], [] => Eq
  | [], _ :: _ => Lt
  | _ :: _, [] => Gt
  | x :: a', y :: b' =>
      match x ?= y with
      | Eq => lex_compare a' b'
      | c => c
      end
  end.

Definition compare (d1 d2 : datetime) : comparison :=
  lex_compare (key d1) (key d2).

(** [d1 <= d2] and [d1 < d2] on datetimes. *)
Definition le (d1 d2 : datetime) : Prop := compare d1 d2 <> Gt.
Definition lt (d1 d2 : datetime) : Prop := compare d1 d2 = Lt.

(** *** Reading the text back ([datetime.fromisoformat]) *)

Definition digit_value (c : ascii) : option Z :=
  let n := nat_of_ascii c in
  if (Nat.leb 48 n && Nat.leb n 57)%bool then Some (Z.of_nat (n - 48)) else None.

(** Reads exactly [w] decimal digits, most significant first, on top of the
    value [acc] read so far. *)
Fixpoint read_digits (w : nat) (acc : Z) (s : string) : option (Z * string) :=
  match w with
  | O => Some (acc, s)
  | S w' =>
      match s with
      | String c rest =>
          match digit_value c with
          | Some v => read_digits w' (10 * acc + v) rest
          | None => None
          end
      | EmptyString => None
      end
  end.

Definition expect (c : ascii) (s : string) : option string :=
  match s with
  | String c' rest => if Ascii.eqb c c' then Some rest else None
  | EmptyString => None
  end.

(** The two layouts [isoformat] writes for a UTC datetime, which are the
    only texts the handlers ever store; any other text is refused here
    (the library reads further layouts). *)
Definition fromisoformat (s : string) : option datetime :=
  '(y, s) ← read_digits 4 0 s; s ← expect "-" s;
  '(mo, s) ← read_digits 2 0 s; s ← expect "-" s;
  '(d, s) ← read_digits 2 0 s; s ← expect "T" s;
  '(h, s) ← read_digits 2 0 s; s ← expect ":" s;
  '(mi, s) ← read_digits 2 0 s; s ← expect ":" s;
  '(se, s) ← read_digits 2 0 s;
  match s with
  | String "." s' =>
      '(us, s'') ← read_digits 6 0 s';
      if String.eqb s'' "+00:00"
      then Some (mkDatetime y mo d h mi se us) else None
  | _ =>
      if String.eqb s "+00:00"
      then Some (mkDatetime y mo d h mi se 0) else None
  end.

End Datetime.

(** ** [base64.b64encode] *)

Module Base64.

Definition alphabet : string :=
  "ABCDEFGHIJKLMNOPQRSTUVWXYZabcdefghijklmnopqrstuvwxyz0123456789+/".

(** The character of a 6-bit value. *)
Definition sextet (n : Z) : ascii :=
  match String.get (Z.to_nat (Z.land n 63)) alphabet with
  | Some c => c
  | None => "="%char
  end.

Definition byte_val (b : Byte.byte) : Z := Z.of_N (Byte.to_N b).

Fixpoint b64encode (bs : list Byte.byte) : string :=
  match bs with
  | [] => EmptyString
  | [a] =>
      let n := Z.shiftl (byte_val a) 16 in
      String (sextet (Z.shiftr n 18)) (String (sextet (Z.shiftr n 12)) "==")
  | [a; b] =>
      let n := Z.lor (Z.shiftl (byte_val a) 16) (Z.shiftl (byte_val b) 8) in
      String (sextet (Z.shiftr n 18)) (String (sextet (Z.shiftr n 12))
        (String (sextet (Z.shiftr n 6)) "="))
  | a :: b :: c :: rest =>
      let n := Z.lor (Z.lor (Z.shiftl (byte_val a) 16) (Z.shiftl (byte_val b) 8))
                     (byte_val c) in
      String (sextet (Z.shiftr n 18)) (String (sextet (Z.shiftr n 12))
        (String (sextet (Z.shiftr n 6)) (String (sextet n)
          (b64encode rest))))
  end.

End Base64.

(** ** Values, documents and pydantic models *)

(** What a field of a dumped model or of a stored document can hold. *)
Inductive value :=
| VNone
| VBool (b : bool)
| VInt (n : Z)
| VStr (s : string)
| VList (l : list string)
| VDatetime (d : Datetime.datetime).

#[global] Instance datetime_eq_dec : EqDecision Datetime.datetime.
Proof. solve_decision. Defined.

#[global] Instance value_eq_dec : EqDecision value.
Proof. solve_decision. Defined.

(** A [dict] with [str] keys. *)
Abbreviation document := (gmap string value).

Definition opt_int (v : option Z) : value :=
  match v with Some n => VInt n | None => VNone end.

Definition opt_str (v : option string) : value :=
  match v with Some s => VStr s | None => VNone end.

(** [class UserCreate(BaseModel)] *)
Module UserCreate.
Record t := mk { email : string; full_name : string; password : string }.
End UserCreate.

(** [class UserLogin(BaseModel)] *)
Module UserLogin.
Record t := mk { email : string; password : string }.
End UserLogin.

(** [class User(BaseModel)]; [id] and [created_at] come from the default
    factories, whose results the caller passes in. *)
Module User.
Record t := mk {
  id : string;
  email : string;
  full_name : string;
  created_at : Datetime.datetime
}.

Definition model_dump (u : t) : document :=
  <["id" := VStr (id u)]>
  (<["email" := VStr (email u)]>
  (<["full_name" := VStr (full_name u)]>
  (<["created_at" := VDatetime (created_at u)]> ∅))).
End User.

(** [class MedicalHistoryCreate(BaseModel)] *)
Module MedicalHistoryCreate.
Record t := mk {
  age : Z;
  family_history : bool;
  previous_biopsies : bool;
  hormone_therapy : bool;
  first_pregnancy_age : option Z;
  menstruation_age : option Z;
  breast_density : option string
}.

Definition model_dump (m : t) : document :=
  <["age" := VInt (age m)]>
  (<["family_history" := VBool (family_history m)]>
  (<["previous_biopsies" := VBool (previous_biopsies m)]>
  (<["hormone_therapy" := VBool (hormone_therapy m)]>
  (<["first_pregnancy_age" := opt_int (first_pregnancy_age m)]>
  (<["menstruation_age" := opt_int (menstruation_age m)]>
  (<["breast_density" := opt_str (breast_density m)]> ∅)))))).
End MedicalHistoryCreate.

(** [class MedicalHistory(BaseModel)] *)
Module MedicalHistory.
Record t := mk {
  id : string;
  user_id : string;
  age : Z;
  family_history : bool;
  previous_biopsies : bool;
  hormone_therapy : bool;
  first_pregnancy_age : option Z;
  menstruation_age : option Z;
  breast_density : option string;
  created_at : Datetime.datetime
}.

Definition model_dump (m : t) : document :=
  <["id" := VStr (id m)]>
  (<["user_id" := VStr (user_id m)]>
  (<["age" := VInt (age m)]>
  (<["family_history" := VBool (family_history m)]>
  (<["previous_biopsies" := VBool (previous_biopsies m)]>
  (<["hormone_therapy" := VBool (hormone_therapy m)]>
  (<["first_pregnancy_age" := opt_int (first_pregnancy_age m)]>
  (<["menstruation_age" := opt_int (menstruation_age m)]>
  (<["breast_density" := opt_str (breast_density m)]>
  (<["created_at" := VDatetime (created_at m)]> ∅))))))))).
End MedicalHistory.

(** [class Analysis(BaseModel)] *)
Module Analysis.
Record t := mk {
  id : string;
  user_id : string;
  analysis_type : string;
  result : string;
  risk_level : string;
  recommendations : list string;
  image_data : option string;
  created_at : Datetime.datetime
}.

Definition model_dump (a : t) : document :=
  <["id" := VStr (id a)]>
  (<["user_id" := VStr (user_id a)]>
  (<["analysis_type" := VStr (analysis_type a)]>
  (<["result" := VStr (result a)]>
  (<["risk_level" := VStr (risk_level a)]>
  (<["recommendations" := VList (recommendations a)]>
  (<["image_data" := opt_str (image_data a)]>
  (<["created_at" := VDatetime (created_at a)]> ∅))))))).

(** [model_dump(exclude={"image_data"})] *)
Definition model_dump_exclude (excluded : string) (a : t) : document :=
  delete excluded (model_dump a).
End Analysis.

(** [class RiskAssessmentRequest(BaseModel)] *)
Module RiskAssessmentRequest.
Record t := mk {
  age : Z;
  family_history : bool;
  previous_biopsies : bool;
  hormone_therapy : bool;
  first_pregnancy_age : option Z;
  menstruation_age : option Z;
  breast_density : option string
}.
End RiskAssessmentRequest.

(** ** Risk scoring policy ([risk_assessment], the arithmetic part) *)

Module Risk.
Import RiskAssessmentRequest.
Abbreviation RiskAssessmentRequest := RiskAssessmentRequest.t.
Abbreviation mkRiskAssessmentRequest := RiskAssessmentRequest.mk.

(** [data.breast_density == "dense"]: [None] is not equal to any string. *)
Definition is_dense (d : option string) : bool :=
  match d with
  | Some s => String.eqb s "dense"
  | None => false
  end.

(** The statements of [risk_assessment] that update [risk_score], in
    order. *)
Definition risk_score (data : RiskAssessmentRequest) : Z :=
  let risk_score := 0 in
  let risk_score :=
    if age data >? 50 then risk_score + 3
    else if age data >? 40 then risk_score + 2
    else if age data >? 30 then risk_score + 1
    else risk_score in
  let risk_score := if family_history data then risk_score + 4 else risk_score in
  let risk_score := if previous_biopsies data then risk_score + 3 else risk_score in
  let risk_score := if hormone_therapy data then risk_score + 2 else risk_score in
  let risk_score := if is_dense (breast_density data) then risk_score + 2 else risk_score in
  risk_score.

(** The [if]/[elif]/[else] that maps the score to a level. *)
Definition risk_level_of (risk_score : Z) : string :=
  if risk_score >=? 8 then "high"
  else if risk_score >=? 4 then "moderate"
  else "low".

Definition risk_level (data : RiskAssessmentRequest) : string :=
  risk_level_of (risk_score data).

(** *** The reference schedule, as the specification tabulates it *)

Definition age_points (a : Z) : Z :=
  if 50 <? a then 3
  else if (40 <? a) && (a <=? 50) then 2
  else if (30 <? a) && (a <=? 40) then 1
  else 0.

Definition points (w : Z) (present : bool) : Z := if present then w else 0.

Definition density_points (d : option string) : Z :=
  match d with
  | Some "dense" => 2
  | _ => 0
  end.

Definition schedule_score (data : RiskAssessmentRequest) : Z :=
  age_points (age data)
  + points 4 (family_history data)
  + points 3 (previous_biopsies data)
  + points 2 (hormone_therapy data)
  + density_points (breast_density data).

(** One listed risk factor goes from absent to present, every other field
    is the same. *)
Inductive adds_factor : RiskAssessmentRequest -> RiskAssessmentRequest -> Prop :=
| add_family_history a pb ht fp ma bd :
    adds_factor (mkRiskAssessmentRequest a false pb ht fp ma bd)
                (mkRiskAssessmentRequest a true pb ht fp ma bd)
| add_previous_biopsies a fh ht fp ma bd :
    adds_factor (mkRiskAssessmentRequest a fh false ht fp ma bd)
                (mkRiskAssessmentRequest a fh true ht fp ma bd)
| add_hormone_therapy a fh pb fp ma bd :
    adds_factor (mkRiskAssessmentRequest a fh pb false fp ma bd)
                (mkRiskAssessmentRequest a fh pb true fp ma bd)
| add_dense a fh pb ht fp ma bd :
    bd <> Some "dense" ->
    adds_factor (mkRiskAssessmentRequest a fh pb ht fp ma bd)
                (mkRiskAssessmentRequest a fh pb ht fp ma (Some "dense")).

End Risk.

(** ** Exceptions and the handler monad *)

(** The exception classes the handlers raise or tell apart.  [Error] is any
    other exception; its argument is [str(e)]. *)
Inductive exn :=
| HTTPException (status_code : Z) (detail : string)
| ExpiredSignatureError (msg : string)
| InvalidTokenError (msg : string)
| Error (msg : string).

(** [str(e)] *)
Definition str_exn (e : exn) : string :=
  match e with
  | HTTPException c d => Py.str_of_int c ++ ": " ++ d
  | ExpiredSignatureError m => m
  | InvalidTokenError m => m
  | Error m => m
  end.

(** The document store: the three collections, each in insertion order.
    The [_id] the driver adds to a stored document is left out: every read
    below projects it away or ignores it. *)
Record Db := mkDb {
  users : list document;
  medical_history : list document;
  analyses : list document
}.

Inductive collection := Users | MedicalHistories | Analyses.

Definition coll (c : collection) (db : Db) : list document :=
  match c with
  | Users => users db
  | MedicalHistories => medical_history db
  | Analyses => analyses db
  end.

Definition set_coll (c : collection) (l : list document) (db : Db) : Db :=
  match c with
  | Users => mkDb l (medical_history db) (analyses db)
  | MedicalHistories => mkDb (users db) l (analyses db)
  | Analyses => mkDb (users db) (medical_history db) l
  end.

(** A handler runs against the store and either returns or raises; what it
    wrote before raising stays written. *)
Definition M (A : Type) : Type := Db -> (exn + A) * Db.

Definition ret {A} (a : A) : M A := fun db => (inr a, db).
Definition raise {A} (e : exn) : M A := fun db => (inl e, db).

Definition bind {A B} (m : M A) (k : A -> M B) : M B :=
  fun db =>
    match m db with
    | (inr a, db') => k a db'
    | (inl e, db') => (inl e, db')
    end.

(** [try: m  except ...: h e] *)
Definition try_except {A} (m : M A) (h : exn -> M A) : M A :=
  fun db =>
    match m db with
    | (inl e, db') => h e db'
    | r => r
    end.

(** The outcome of a call that does not touch the store. *)
Definition lift {A} (r : exn + A) : M A :=
  match r with
  | inl e => raise e
  | inr a => ret a
  end.

Declare Scope handler_scope.
Delimit Scope handler_scope with handler.
Notation "x <- m ;; k" := (bind m (fun x => k))
  (at level 100, m at next level, right associativity) : handler_scope.
Notation "m ;;; k" := (bind m (fun _ => k))
  (at level 100, right associativity) : handler_scope.

(** *** Queries *)

(** The filter [{field: v}]. *)
Definition matches (field : string) (v : value) (doc : document) : bool :=
  bool_decide (doc !! field = Some v).

(** The text a document is ordered by under [sort("created_at", ...)].
    Every [created_at] the handlers store is text (see [iso_stamped]); a
    document without one is keyed by the empty text. *)
Definition created_at_key (doc : document) : string :=
  match doc !! "created_at" with
  | Some (VStr s) => s
  | _ => EmptyString
  end.

(** [k1 <= k2] in the store's binary order on text. *)
Definition text_le (k1 k2 : string) : bool :=
  match String.compare k1 k2 with
  | Gt => false
  | _ => true
  end.

Fixpoint insert_desc (d : document) (l : list document) : list document :=
  match l with
  | [] => [d]
  | x :: l' =>
      if text_le (created_at_key x) (created_at_key d)
      then d :: x :: l'
      else x :: insert_desc d l'
  end.

(** [cursor.sort("created_at", -1)]: descending by the text of
    [created_at].  Documents with equal texts are kept in insertion order
    here; the store promises no order among them and nothing below relies
    on one. *)
Definition sort_desc (l : list document) : list document :=
  foldr insert_desc [] l.

(** What the outside world hands to one request. *)
Record World := mkWorld {
  now : Datetime.datetime;          (* [datetime.now(timezone.utc)] *)
  uuid4 : nat -> string;            (* the k-th [str(uuid.uuid4())] *)
  salt : string;                    (* the salt [pwd_context.hash] draws *)
  store_fault : option string       (* the store refuses the write *)
}.

(** [db.<c>.find_one({field: v})]: the first match in insertion order. *)
Definition find_one (c : collection) (field : string) (v : value)
  : M (option document) :=
  fun db => (inr (head (filter (fun d => matches field v d = true) (coll c db))), db).

(** [db.<c>.find({field: v})] *)
Definition find (c : collection) (field : string) (v : value)
  : M (list document) :=
  fun db => (inr (filter (fun d => matches field v d = true) (coll c db)), db).

(** [db.<c>.delete_many({field: v})] *)
Definition delete_many (c : collection) (field : string) (v : value) : M unit :=
  fun db =>
    (inr tt,
     set_coll c (filter (fun d => matches field v d = false) (coll c db)) db).

(** [db.<c>.insert_one(doc)]: the document is appended, or the store
    refuses and nothing is written. *)
Definition insert_one (w : World) (c : collection) (doc : document) : M unit :=
  fun db =>
    match store_fault w with
    | Some msg => (inl (Error msg), db)
    | None => (inr tt, set_coll c (coll c db ++ [doc]) db)
    end.

(** ** The collaborators outside the repository *)

(** The claims [create_token] signs into a token. *)
Module Payload.
Record t := mk {
  user_id : option string;
  email : option string;
  exp : option Datetime.datetime
}.
End Payload.

(** What [LlmChat(...).send_message(UserMessage(...))] is given. *)
Module LlmRequest.
Record t := mk {
  session_id : string;
  system_message : string;
  text : string;
  file_contents : list string
}.
End LlmRequest.

(** Libraries and services the handlers call and this repository does not
    define. *)
Record Services := mkServices {
  lower : string -> string;                        (* [str.lower] *)
  pwd_hash : string -> string -> string;           (* [pwd_context.hash], by salt *)
  pwd_verify : string -> string -> bool;           (* [pwd_context.verify] *)
  jwt_encode : Payload.t -> string;                (* [jwt.encode], key and algorithm fixed *)
  jwt_decode : Datetime.datetime -> string -> exn + Payload.t;
                                                   (* [jwt.decode] at a given time *)
  add_days : Z -> Datetime.datetime -> Datetime.datetime;
                                                   (* [+ timedelta(days=n)] *)
  png_of : list Byte.byte -> exn + list Byte.byte; (* [Image.open] then [save(format="PNG")] *)
  send_message : LlmRequest.t -> exn + string      (* the language model *)
}.

(** ** The handlers of [server.py] *)

Module Server.
Local Open Scope handler_scope.

(** The body of [{"token": ..., "user": ...}]. *)
Record AuthResponse := mkAuthResponse { token : string; user : document }.

(** [doc[k]] where the code goes on to use the value as text. *)
Definition item_str (doc : document) (k : string) : exn + string :=
  match doc !! k with
  | Some (VStr s) => inr s
  | Some _ => inl (Error ("ValidationError: " ++ k))
  | None => inl (Error ("KeyError: " ++ k))
  end.

(** [l.insert(i, x)] *)
Definition py_insert {A} (i : nat) (x : A) (l : list A) : list A :=
  take i l ++ x :: drop i l.

(** The [created_at] conversion that [login] and [get_analyses] apply to a
    stored document. *)
Definition created_at_value (doc : document) : exn + Datetime.datetime :=
  match doc !! "created_at" with
  | Some (VStr s) =>
      match Datetime.fromisoformat s with
      | Some d => inr d
      | None => inl (Error ("Invalid isoformat string: " ++ s))
      end
  | Some (VDatetime d) => inr d
  | Some _ => inl (Error "ValidationError: created_at")
  | None => inl (Error "KeyError: created_at")
  end.

Fixpoint for_each {A B} (f : A -> exn + B) (l : list A) : exn + list B :=
  match l with
  | [] => inr []
  | x :: l' =>
      match f x with
      | inl e => inl e
      | inr y =>
          match for_each f l' with
          | inl e => inl e
          | inr ys => inr (y :: ys)
          end
      end
  end.

Section Handlers.
Variable svc : Services.
Variable w : World.

Definition hash_password (password : string) : string :=
  pwd_hash svc (salt w) password.

Definition verify_password (plain_password hashed_password : string) : bool :=
  pwd_verify svc plain_password hashed_password.

Definition create_token (user_id email : string) : string :=
  jwt_encode svc
    (Payload.mk (Some user_id) (Some email) (Some (add_days svc 7 (now w)))).

Definition get_current_user (credentials : string) : M string :=
  try_except
    (let token := credentials in
     payload <- lift (jwt_decode svc (now w) token) ;;
     let user_id := Payload.user_id payload in
     if negb (Py.truthy_str user_id)
     then raise (HTTPException 401 "Invalid token")
     else ret (default EmptyString user_id))
    (fun e =>
       match e with
       | ExpiredSignatureError _ => raise (HTTPException 401 "Token expired")
       | InvalidTokenError _ => raise (HTTPException 401 "Invalid token")
       | _ => raise e
       end).

(** [Depends(get_current_user)]: the handler runs only with the user id the
    dependency returned. *)
Definition protected {A} (credentials : string) (handler : string -> M A) : M A :=
  user_id <- get_current_user credentials ;;
  handler user_id.

Definition register (user_data : UserCreate.t) : M AuthResponse :=
  existing_user <- find_one Users "email" (VStr (UserCreate.email user_data)) ;;
  match existing_user with
  | Some _ => raise (HTTPException 400 "Email already registered")
  | None =>
      let user := User.mk (uuid4 w 0) (UserCreate.email user_data)
                          (UserCreate.full_name user_data) (now w) in
      let user_doc := User.model_dump user in
      let user_doc :=
        <["created_at" := VStr (Datetime.isoformat (User.created_at user))]> user_doc in
      let user_doc :=
        <["password" := VStr (hash_password (UserCreate.password user_data))]> user_doc in
      insert_one w Users user_doc ;;;
      let token := create_token (User.id user) (User.email user) in
      ret (mkAuthResponse token (User.model_dump user))
  end.

Definition login (credentials : UserLogin.t) : M AuthResponse :=
  user_doc <- find_one Users "email" (VStr (UserLogin.email credentials)) ;;
  match user_doc with
  | None => raise (HTTPException 401 "Invalid credentials")
  | Some user_doc =>
      hashed <- lift (match user_doc !! "password" with
                      | None => inr EmptyString
                      | Some (VStr h) => inr h
                      | Some _ => inl (Error "TypeError: password")
                      end) ;;
      if negb (verify_password (UserLogin.password credentials) hashed)
      then raise (HTTPException 401 "Invalid credentials")
      else
        id <- lift (item_str user_doc "id") ;;
        email <- lift (item_str user_doc "email") ;;
        let token := create_token id email in
        full_name <- lift (item_str user_doc "full_name") ;;
        created_at <- lift (created_at_value user_doc) ;;
        let user := User.mk id email full_name created_at in
        ret (mkAuthResponse token (User.model_dump user))
  end.

Definition get_me (user_id : string) : M document :=
  user_doc <- find_one Users "id" (VStr user_id) ;;
  match user_doc with
  | None => raise (HTTPException 404 "User not found")
  | Some user_doc => ret (delete "password" user_doc)
  end.

(** The [MedicalHistory] that [create_medical_history] builds. *)
Definition new_history (data : MedicalHistoryCreate.t) (user_id : string)
  : MedicalHistory.t :=
  MedicalHistory.mk (uuid4 w 0) user_id
    (MedicalHistoryCreate.age data)
    (MedicalHistoryCreate.family_history data)
    (MedicalHistoryCreate.previous_biopsies data)
    (MedicalHistoryCreate.hormone_therapy data)
    (MedicalHistoryCreate.first_pregnancy_age data)
    (MedicalHistoryCreate.menstruation_age data)
    (MedicalHistoryCreate.breast_density data)
    (now w).

(** [history_doc]: the dump with [created_at] replaced by its ISO text. *)
Definition history_doc (history : MedicalHistory.t) : document :=
  let history_doc := MedicalHistory.model_dump history in
  <["created_at" := VStr (Datetime.isoformat (MedicalHistory.created_at history))]>
    history_doc.

Definition create_medical_history (data : MedicalHistoryCreate.t)
    (user_id : string) : M MedicalHistory.t :=
  delete_many MedicalHistories "user_id" (VStr user_id) ;;;
  let history := new_history data user_id in
  insert_one w MedicalHistories (history_doc history) ;;;
  ret history.

Definition get_medical_history (user_id : string) : M (option document) :=
  history <- find_one MedicalHistories "user_id" (VStr user_id) ;;
  ret history.

(** The level [analyze_image] reads off the model's reply. *)
Definition reply_risk_level (ai_response : string) : string :=
  let response_lower := lower svc ai_response in
  if Py.contains "high risk" response_lower || Py.contains "high-risk" response_lower
  then "high"
  else if Py.contains "moderate risk" response_lower
          || Py.contains "moderate" response_lower
  then "moderate"
  else "low".

Definition image_system_message : string :=
  "You are an AI medical assistant specialized in breast cancer detection. Analyze mammogram images and provide detailed insights about potential abnormalities, their characteristics, and recommendations. Always include a risk assessment (low, moderate, or high) and actionable next steps.".

Definition image_text : string :=
  "Please analyze this mammogram image for any signs of abnormalities or potential breast cancer indicators. Provide: 1) Detailed findings, 2) Risk level (low/moderate/high), 3) Specific recommendations for next steps.".

(** The [chat] and [message] of [analyze_image], as one request. *)
Definition image_message (user_id img_base64 : string) : LlmRequest.t :=
  let chat := LlmRequest.mk ("analysis_" ++ user_id ++ "_" ++ uuid4 w 0)
                            image_system_message in
  chat image_text [img_base64].

(** The [Analysis] that [analyze_image] builds from the reply. *)
Definition image_analysis (user_id ai_response img_base64 : string) : Analysis.t :=
  let risk_level := reply_risk_level ai_response in
  let recommendations :=
    ["Consult with a healthcare professional";
     "Schedule a follow-up examination";
     "Maintain regular screening schedule"] in
  Analysis.mk (uuid4 w 1) user_id "image" ai_response risk_level
              recommendations (Some (Py.slice_to 1000 img_base64)) (now w).

(** [analysis_doc]: the dump with [created_at] replaced by its ISO text. *)
Definition analysis_doc (analysis : Analysis.t) : document :=
  let analysis_doc := Analysis.model_dump analysis in
  <["created_at" := VStr (Datetime.isoformat (Analysis.created_at analysis))]>
    analysis_doc.

Definition analyze_image (contents : list Byte.byte) (user_id : string)
  : M document :=
  try_except
    (buffered <- lift (png_of svc contents) ;;
     let img_base64 := Base64.b64encode buffered in
     ai_response <- lift (send_message svc (image_message user_id img_base64)) ;;
     let analysis := image_analysis user_id ai_response img_base64 in
     insert_one w Analyses (analysis_doc analysis) ;;;
     ret (Analysis.model_dump_exclude "image_data" analysis))
    (fun e =>
       raise (HTTPException 500 ("Error analyzing image: " ++ str_exn e))).

(** [data.x or 'N/A'] inside the f-string, for an optional number and for
    an optional text. *)
Definition int_or_na (v : option Z) : string :=
  if Py.truthy_int v then Py.str_of_int (default 0 v) else "N/A".

Definition str_or_na (v : option string) : string :=
  if Py.truthy_str v then default EmptyString v else "N/A".

Definition risk_prompt (data : RiskAssessmentRequest.t) : string :=
  "Based on the following patient information, provide a detailed breast cancer risk assessment:"
  ++ Py.nl ++ "        " ++ Py.nl
  ++ "Age: " ++ Py.str_of_int (RiskAssessmentRequest.age data) ++ Py.nl
  ++ "Family History: " ++ Py.yes_no (RiskAssessmentRequest.family_history data) ++ Py.nl
  ++ "Previous Biopsies: " ++ Py.yes_no (RiskAssessmentRequest.previous_biopsies data) ++ Py.nl
  ++ "Hormone Therapy: " ++ Py.yes_no (RiskAssessmentRequest.hormone_therapy data) ++ Py.nl
  ++ "First Pregnancy Age: " ++ int_or_na (RiskAssessmentRequest.first_pregnancy_age data) ++ Py.nl
  ++ "Menstruation Start Age: " ++ int_or_na (RiskAssessmentRequest.menstruation_age data) ++ Py.nl
  ++ "Breast Density: " ++ str_or_na (RiskAssessmentRequest.breast_density data) ++ Py.nl
  ++ Py.nl
  ++ "Provide a comprehensive risk analysis with specific recommendations.".

Definition risk_system_message : string :=
  "You are an AI medical assistant providing breast cancer risk assessments based on patient history and demographics.".

Definition risk_recommendations (risk_level : string) : list string :=
  let recommendations :=
    ["Schedule annual mammogram screening";
     "Perform monthly self-examinations";
     "Maintain a healthy lifestyle";
     "Discuss results with your healthcare provider"] in
  if String.eqb risk_level "high"
  then
    let recommendations := py_insert 0 "Consult with an oncologist immediately" recommendations in
    py_insert 1 "Consider genetic testing" recommendations
  else recommendations.

Definition risk_message (data : RiskAssessmentRequest.t) (user_id : string)
  : LlmRequest.t :=
  let chat := LlmRequest.mk ("risk_assessment_" ++ user_id ++ "_" ++ uuid4 w 0)
                            risk_system_message in
  let prompt := risk_prompt data in
  chat prompt [].

(** The [Analysis] that [risk_assessment] builds from the reply. *)
Definition risk_analysis (data : RiskAssessmentRequest.t)
    (user_id ai_response : string) : Analysis.t :=
  let risk_score := Risk.risk_score data in
  let risk_level := Risk.risk_level_of risk_score in
  let recommendations := risk_recommendations risk_level in
  Analysis.mk (uuid4 w 1) user_id "risk_assessment" ai_response risk_level
              recommendations None (now w).

Definition risk_assessment (data : RiskAssessmentRequest.t) (user_id : string)
  : M document :=
  try_except
    (ai_response <- lift (send_message svc (risk_message data user_id)) ;;
     let analysis := risk_analysis data user_id ai_response in
     insert_one w Analyses (analysis_doc analysis) ;;;
     ret (Analysis.model_dump analysis))
    (fun e =>
       raise (HTTPException 500 ("Error in risk assessment: " ++ str_exn e))).

(** The loop of [get_analyses] on one document. *)
Definition with_datetime (analysis : document) : exn + document :=
  match analysis !! "created_at" with
  | None => inl (Error "KeyError: created_at")
  | Some (VStr s) =>
      match Datetime.fromisoformat s with
      | Some d => inr (<["created_at" := VDatetime d]> analysis)
      | None => inl (Error ("Invalid isoformat string: " ++ s))
      end
  | Some _ => inr analysis
  end.

Definition get_analyses (user_id : string) : M (list document) :=
  found <- find Analyses "user_id" (VStr user_id) ;;
  let analyses := take 100 (sort_desc found) in
  analyses <- lift (for_each with_datetime analyses) ;;
  ret analyses.

(** The response body of a route that returns a [dict]: the framework's
    encoder writes a [datetime] as its [isoformat()] text and leaves the
    other values as they are. *)
Definition jsonable_encoder (body : document) : document :=
  (fun v => match v with
            | VDatetime d => VStr (Datetime.isoformat d)
            | _ => v
            end) <$> body.

(** *** The protected routes *)

Inductive request :=
| GetMe
| PostMedicalHistory (data : MedicalHistoryCreate.t)
| GetMedicalHistory
| PostAnalyzeImage (file : list Byte.byte)
| PostRiskAssessment (data : RiskAssessmentRequest.t)
| GetAnalyses.

Inductive reply :=
| UserRecord (d : document)
| History (h : MedicalHistory.t)
| StoredHistory (d : option document)
| AnalysisBody (d : document)
| AnalysisList (l : list document).

Definition fmap_reply {A} (f : A -> reply) (m : M A) : M reply :=
  a <- m ;; ret (f a).

(** Every route declared with [user_id: str = Depends(get_current_user)]. *)
Definition serve (credentials : string) (r : request) : M reply :=
  match r with
  | GetMe => protected credentials (fun u => fmap_reply UserRecord (get_me u))
  | PostMedicalHistory data =>
      protected credentials (fun u => fmap_reply History (create_medical_history data u))
  | GetMedicalHistory =>
      protected credentials (fun u => fmap_reply StoredHistory (get_medical_history u))
  | PostAnalyzeImage file =>
      protected credentials (fun u => fmap_reply AnalysisBody (analyze_image file u))
  | PostRiskAssessment data =>
      protected credentials (fun u => fmap_reply AnalysisBody (risk_assessment data u))
  | GetAnalyses =>
      protected credentials (fun u => fmap_reply AnalysisList (get_analyses u))
  end.

End Handlers.

(** The scan of a lowercased reply as the specification words it: "high"
    for a reply with "high risk" or "high-risk", else "moderate" for one
    with "moderate", else "low". *)
Definition scan_level (response_lower : string) : string :=
  if Py.contains "high risk" response_lower || Py.contains "high-risk" response_lower
  then "high"
  else if Py.contains "moderate" response_lower then "moderate"
  else "low".

(** *** Runs of the service *)

Definition empty_db : Db := mkDb [] [] [].

(** One request to the API. *)
Inductive call :=
| Register (user_data : UserCreate.t)
| Login (credentials : UserLogin.t)
| Authorized (credentials : string) (r : request).

(** The store a request leaves behind. *)
Definition exec (svc : Services) (w : World) (c : call) (db : Db) : Db :=
  match c with
  | Register user_data => snd (register svc w user_data db)
  | Login credentials => snd (login svc w credentials db)
  | Authorized credentials r => snd (serve svc w credentials r db)
  end.

(** The stores the service can be in: it starts empty and serves requests
    one after the other, each at some instant of the clock. *)
Inductive reachable (svc : Services) : Db -> Prop :=
| reach_empty : reachable svc empty_db
| reach_exec db w c :
    reachable svc db ->
    Datetime.valid (now w) ->
    reachable svc (exec svc w c db).

(** The documents of a collection that belong to a user. *)
Definition owned_by (user_id : string) (l : list document) : list document :=
  filter (fun d => matches "user_id" (VStr user_id) d = true) l.

(** [x] may stand before [y] under [sort("created_at", -1)]: its text is
    not below that of [y]. *)
Definition not_older (x y : document) : Prop :=
  text_le (created_at_key y) (created_at_key x) = true.

(** Latest first, on datetimes. *)
Definition not_before (t1 t2 : Datetime.datetime) : Prop := Datetime.le t2 t1.
Definition after (t1 t2 : Datetime.datetime) : Prop := Datetime.lt t2 t1.

(** A stored document and the datetime its [created_at] text stands for. *)
Definition stamped (d : document) (t : Datetime.datetime) : Prop :=
  Datetime.valid t /\ d !! "created_at" = Some (VStr (Datetime.isoformat t)).

(** A stored [created_at] is the ISO text of a datetime. *)
Definition iso_stamped (doc : document) : Prop :=
  exists t, Datetime.valid t /\
            doc !! "created_at" = Some (VStr (Datetime.isoformat t)).

End Server.

(** ** The records the account routes build *)

Module Account.

(** The [User] that [register] builds. *)
Definition new_user (w : World) (user_data : UserCreate.t) : User.t :=
  User.mk (uuid4 w 0) (UserCreate.email user_data)
          (UserCreate.full_name user_data) (now w).

(** [user_doc] as [register] stores it: the dump with [created_at] as ISO
    text and the hashed password added. *)
Definition user_doc (svc : Services) (w : World) (user_data : UserCreate.t)
  : document :=
  <["password" := VStr (Server.hash_password svc w (UserCreate.password user_data))]>
    (<["created_at" := VStr (Datetime.isoformat (now w))]>
       (User.model_dump (new_user w user_data))).

(** The emails of the stored users, in insertion order. *)
Definition emails (l : list document) : list (option value) :=
  (fun d => d !! "email") <$> l.

End Account.

(** ** Several requests in a row *)

Module Runs.

(** The store after the requests of [steps], served in order, each with
    what the outside world handed to it. *)
Fixpoint run (svc : Services) (steps : list (World * Server.call)) (db : Db) : Db :=
  match steps with
  | [] => db
  | (w, c) :: rest => run svc rest (Server.exec svc w c db)
  end.

(** The routes that only read. *)
Definition reads_only (r : Server.request) : bool :=
  match r with
  | Server.GetMe | Server.GetMedicalHistory | Server.GetAnalyses => true
  | _ => false
  end.

End Runs.

(** ** Stand-ins for the collaborators, to run the handlers on examples *)

Module Stub.

Definition at_2024_03_09 : Datetime.datetime :=
  Datetime.mkDatetime 2024 3 9 7 5 0 1200.

Definition at_2024_03_10 : Datetime.datetime :=
  Datetime.mkDatetime 2024 3 10 18 30 12 0.

Definition world (t : Datetime.datetime) : World :=
  mkWorld t (fun k => if Nat.eqb k 0 then "6f1c" else "a2e7") "s4lt" None.

Definition faulty_world (t : Datetime.datetime) (msg : string) : World :=
  mkWorld t (fun k => if Nat.eqb k 0 then "6f1c" else "a2e7") "s4lt" (Some msg).

(** A token is the user id itself; the tokens "expired" and "forged" are
    refused the way [jwt.decode] refuses them. *)
Definition services (reply : exn + string) : Services :=
  mkServices
    Py.ascii_lower
    (fun salt password => salt ++ "$" ++ password)
    (fun plain hashed => String.eqb hashed ("s4lt$" ++ plain))
    (fun payload => default EmptyString (Payload.user_id payload))
    (fun _ token =>
       if String.eqb token "expired"
       then inl (ExpiredSignatureError "Signature has expired")
       else if String.eqb token "forged"
       then inl (InvalidTokenError "Signature verification failed")
       else inr (Payload.mk (Some token) None None))
    (fun _ d => d)
    (fun contents => inr contents)
    (fun _ => reply).

(** Two requests of user "u1", a day apart: a risk assessment, then an
    image analysis. *)
Definition risk_request : RiskAssessmentRequest.t :=
  RiskAssessmentRequest.mk 45 true false true (Some 25) (Some 12) (Some "dense").

Definition after_risk_assessment : Db :=
  Server.exec (services (inr "Elevated; moderate risk overall."))
    (world at_2024_03_09)
    (Server.Authorized "u1" (Server.PostRiskAssessment risk_request))
    Server.empty_db.

Definition after_image_analysis : Db :=
  Server.exec (services (inr "Elevated; moderate risk overall."))
    (world at_2024_03_10)
    (Server.Authorized "u1" (Server.PostAnalyzeImage [Byte.x4d; Byte.x61; Byte.x6e]))
    after_risk_assessment.

(** A second image analysis of "u1" at the very instant of the first. *)
Definition after_same_instant : Db :=
  Server.exec (services (inr "No abnormality; low risk."))
    (world at_2024_03_10)
    (Server.Authorized "u1" (Server.PostAnalyzeImage [Byte.x4d]))
    after_image_analysis.

(** Two image analyses of "u1" served by one and the same service at one
    and the same instant. *)
Definition twice_at_one_instant : Db :=
  Server.exec (services (inr "No abnormality; low risk."))
    (world at_2024_03_10)
    (Server.Authorized "u1" (Server.PostAnalyzeImage [Byte.x4d]))
    (Server.exec (services (inr "No abnormality; low risk."))
       (world at_2024_03_10)
       (Server.Authorized "u1" (Server.PostAnalyzeImage [Byte.x61]))
       Server.empty_db).

Definition first_history : MedicalHistoryCreate.t :=
  MedicalHistoryCreate.mk 35 true false false (Some 28) (Some 13) (Some "normal").

Definition second_history : MedicalHistoryCreate.t :=
  MedicalHistoryCreate.mk 36 true true false (Some 28) (Some 13) (Some "dense").

End Stub.

(** * Properties *)

(** ** Facts about the string primitives *)

Module PyFacts.
Import Py.
#[local] Arguments String.append !_ _ / : simpl nomatch.

Lemma append_assoc (a b c : string) :
  ((a ++ b) ++ c = a ++ (b ++ c))%string.
Proof. induction a as [|x a IH]; simpl; [reflexivity | now rewrite IH]. Qed.

Lemma append_nil_r (a : string) : (a ++ "")%string = a.
Proof. induction a as [|x a IH]; simpl; [reflexivity | now rewrite IH]. Qed.

Lemma length_append (a b : string) :
  String.length (a ++ b) = (String.length a + String.length b)%nat.
Proof. induction a as [|x a IH]; simpl; [reflexivity | now rewrite IH]. Qed.

Lemma prefix_cons x a y s :
  String.prefix (String x a) (String y s)
  = if ascii_dec x y then String.prefix a s else false.
Proof. reflexivity. Qed.

Lemma prefix_spec (a s : string) :
  String.prefix a s = true <-> exists rest, s = (a ++ rest)%string.
Proof.
  revert s. induction a as [|x a IH]; intros s.
  - split; [intros _; now exists s | intros _; now destruct s].
  - destruct s as [|y s].
    + split; [discriminate | intros [rest H]; discriminate].
    + rewrite prefix_cons. destruct (ascii_dec x y) as [->|Hne].
      * rewrite IH. split; intros [rest H]; exists rest; simpl in *; congruence.
      * split; [discriminate | intros [rest H]; simpl in H; congruence].
Qed.

Lemma contains_nil needle :
  contains needle "" = String.prefix needle "".
Proof. unfold contains. apply orb_false_r. Qed.

Lemma contains_cons needle c hay :
  contains needle (String c hay)
  = String.prefix needle (String c hay) || contains needle hay.
Proof. reflexivity. Qed.

Lemma contains_spec (needle hay : string) :
  contains needle hay = true <-> occurs needle hay.
Proof.
  unfold occurs. induction hay as [|c hay IH].
  - rewrite contains_nil, prefix_spec. split.
    + intros [rest H]. now exists ""%string, rest.
    + intros [[|x before] [after H]]; simpl in H; [now exists after | discriminate].
  - rewrite contains_cons, orb_true_iff, prefix_spec, IH. split.
    + intros [[rest H] | [before [after H]]].
      * now exists ""%string, rest.
      * exists (String c before), after. simpl. now rewrite H.
    + intros [[|x before] [after H]]; simpl in H.
      * left. now exists after.
      * right. exists before, after. congruence.
Qed.

(** A text that holds [a ++ b] holds [a]. *)
Lemma contains_weaken (a b hay : string) :
  contains (a ++ b) hay = true -> contains a hay = true.
Proof.
  rewrite !contains_spec. intros [before [after H]].
  exists before, (b ++ after)%string. now rewrite H, append_assoc.
Qed.

Lemma contains_app (before needle after : string) :
  contains needle (before ++ needle ++ after) = true.
Proof. apply contains_spec. now exists before, after. Qed.

Lemma slice_to_length n s : (String.length (slice_to n s) <= n)%nat.
Proof.
  revert s. induction n as [|n IH]; intros [|c s]; simpl; try lia.
  specialize (IH s). lia.
Qed.

Lemma slice_to_prefix n s : String.prefix (slice_to n s) s = true.
Proof.
  revert s. induction n as [|n IH]; intros [|c s]; simpl; try reflexivity.
  destruct (ascii_dec c c); [apply IH | contradiction].
Qed.

Lemma slice_to_full n s :
  (n <= String.length s)%nat -> String.length (slice_to n s) = n.
Proof.
  revert s. induction n as [|n IH]; intros [|c s]; simpl; intros H; try lia.
  rewrite IH; lia.
Qed.

Lemma slice_to_short n s :
  (String.length s <= n)%nat -> slice_to n s = s.
Proof.
  revert s. induction n as [|n IH]; intros [|c s]; simpl; intros H;
    try reflexivity; try lia.
  rewrite IH; [reflexivity | lia].
Qed.

End PyFacts.

Module RiskFacts.
Import RiskAssessmentRequest Risk.

Lemma is_dense_spec d : is_dense d = true <-> d = Some "dense".
Proof.
  destruct d as [s|]; simpl.
  - rewrite String.eqb_eq. split; congruence.
  - split; discriminate.
Qed.

Lemma density_points_is_dense d :
  density_points d = if is_dense d then 2 else 0.
Proof.
  destruct (is_dense d) eqn:E.
  - apply is_dense_spec in E. subst d. reflexivity.
  - destruct d as [s|]; [|reflexivity].
    simpl in E. apply String.eqb_neq in E.
    unfold density_points.
    destruct (String.eqb_spec s "dense") as [->|_]; [contradiction|].
    repeat (match goal with
            | |- context [match ?x with _ => _ end] => destruct x
            end; try reflexivity; try congruence).
Qed.

Lemma risk_score_unfold data :
  risk_score data =
  age_points (age data)
  + (if family_history data then 4 else 0)
  + (if previous_biopsies data then 3 else 0)
  + (if hormone_therapy data then 2 else 0)
  + (if is_dense (breast_density data) then 2 else 0).
Proof.
  unfold risk_score, age_points.
  destruct (family_history data), (previous_biopsies data),
    (hormone_therapy data), (is_dense (breast_density data));
    repeat match goal with
           | |- context [?a >? ?b] => destruct (Z.gtb_spec a b)
           | |- context [?a <? ?b] => destruct (Z.ltb_spec a b)
           | |- context [?a <=? ?b] => destruct (Z.leb_spec a b)
           end; simpl; lia.
Qed.

Lemma age_points_range a : age_points a ∈ [0; 1; 2; 3].
Proof.
  unfold age_points.
  repeat match goal with
         | |- context [?a <? ?b] => destruct (Z.ltb_spec a b)
         | |- context [?a <=? ?b] => destruct (Z.leb_spec a b)
         end; simpl; set_solver.
Qed.

Lemma risk_level_of_cases s :
  (risk_level_of s = "high" <-> 8 <= s) /\
  (risk_level_of s = "moderate" <-> 4 <= s < 8) /\
  (risk_level_of s = "low" <-> s < 4).
Proof.
  unfold risk_level_of.
  destruct (Z.geb_spec s 8), (Z.geb_spec s 4);
    repeat split; intros; try lia; try discriminate; try reflexivity.
Qed.

Lemma risk_score_schedule (data : RiskAssessmentRequest) :
  risk_score data = schedule_score data.
Proof.
  rewrite risk_score_unfold. unfold schedule_score, points.
  rewrite density_points_is_dense. reflexivity.
Qed.

(** The scenarios the specification lists. *)
Example score_45_family_hormone_dense :
  let d := mkRiskAssessmentRequest 45 true false true None None (Some "dense") in
  risk_score d = 10 /\ risk_level d = "high".
Proof. split; reflexivity. Qed.

Example score_25_normal :
  let d := mkRiskAssessmentRequest 25 false false false None None (Some "normal") in
  risk_score d = 0 /\ risk_level d = "low".
Proof. split; reflexivity. Qed.

Example score_42_biopsies :
  let d := mkRiskAssessmentRequest 42 false true false None None None in
  risk_score d = 5 /\ risk_level d = "moderate".
Proof. split; reflexivity. Qed.

Example score_55_age_only :
  risk_score (mkRiskAssessmentRequest 55 false false false None None None) = 3.
Proof. reflexivity. Qed.

(** C7.  Turning one listed risk factor from absent to present, with the
    age and every other field unchanged, never lowers the score. *)
Theorem risk_score_monotone (d d' : RiskAssessmentRequest) :
  adds_factor d d' -> risk_score d <= risk_score d'.
Proof.
  intros H. rewrite !risk_score_unfold.
  destruct H; simpl;
    repeat match goal with
           | |- context [if ?b then _ else _] => destruct b
           end; lia.
Qed.

Lemma risk_score_monotone_witness :
  adds_factor (mkRiskAssessmentRequest 45 false true false None (Some 12) (Some "fatty"))
              (mkRiskAssessmentRequest 45 false true false None (Some 12) (Some "dense"))
  /\ risk_score (mkRiskAssessmentRequest 45 false true false None (Some 12) (Some "fatty"))
     <= risk_score (mkRiskAssessmentRequest 45 false true false None (Some 12) (Some "dense")).
Proof.
  assert (H : adds_factor
                (mkRiskAssessmentRequest 45 false true false None (Some 12) (Some "fatty"))
                (mkRiskAssessmentRequest 45 false true false None (Some 12) (Some "dense")))
    by (constructor; discriminate).
  split; [exact H | exact (risk_score_monotone _ _ H)].
Defined.

(** Each added factor raises the score by exactly its weight. *)
Lemma adds_factor_gain d d' :
  adds_factor d d' -> risk_score d' - risk_score d ∈ [4; 3; 2].
Proof.
  intros H. rewrite !risk_score_unfold.
  destruct H as [| | |a fh pb ht fp ma bd Hbd]; simpl.
  4: { destruct (is_dense bd) eqn:E; [apply is_dense_spec in E; contradiction|].
       replace (_ - _) with 2 by lia. set_solver. }
  all: match goal with |- ?x ∈ _ => ring_simplify x end; set_solver.
Qed.

(** C10.  The density term of the score is 2 when [breast_density] is the
    text "dense", byte for byte, and 0 for every other value and when the
    field is absent; "Dense" and "DENSE" earn nothing. *)
Theorem density_bonus_exact a fh pb ht fp ma (bd : option string) :
  risk_score (mkRiskAssessmentRequest a fh pb ht fp ma bd)
  - risk_score (mkRiskAssessmentRequest a fh pb ht fp ma None)
  = (if decide (bd = Some "dense") then 2 else 0)
  /\ risk_score (mkRiskAssessmentRequest a fh pb ht fp ma (Some "Dense"))
     = risk_score (mkRiskAssessmentRequest a fh pb ht fp ma None)
  /\ risk_score (mkRiskAssessmentRequest a fh pb ht fp ma (Some "DENSE"))
     = risk_score (mkRiskAssessmentRequest a fh pb ht fp ma None).
Proof.
  rewrite !risk_score_unfold. simpl.
  split; [|split; lia].
  destruct (decide (bd = Some "dense")) as [->|Hne]; simpl; [lia|].
  destruct (is_dense bd) eqn:E; [apply is_dense_spec in E; contradiction|lia].
Qed.

End RiskFacts.


(** ** ISO texts of datetimes: reading back and ordering *)

Module DatetimeFacts.
Import Datetime.
#[local] Arguments String.append !_ _ / : simpl nomatch.

(** A decimal digit is the image of a natural number below ten. *)
Lemma digit_of_nat (n : Z) :
  0 <= n <= 9 -> exists k : nat, (k < 10)%nat /\ n = Z.of_nat k.
Proof. intros H. exists (Z.to_nat n). lia. Qed.

Ltac below_ten k Hk :=
  destruct k as [|k];
  [ | apply PeanoNat.lt_S_n in Hk;
      first [ solve [inversion Hk] | below_ten k Hk ] ].

Ltac each_digit n H :=
  let k := fresh "k" in
  let Hk := fresh "Hk" in
  destruct (digit_of_nat n H) as (k & Hk & ->);
  below_ten k Hk.

Lemma digit_value_digit (n : Z) :
  0 <= n <= 9 -> digit_value (digit n) = Some n.
Proof. intros H. each_digit n H; reflexivity. Qed.

Lemma compare_digit (a b : Z) :
  0 <= a <= 9 -> 0 <= b <= 9 ->
  Ascii.compare (digit a) (digit b) = (a ?= b).
Proof. intros Ha Hb. each_digit a Ha; each_digit b Hb; reflexivity. Qed.

Lemma pad_length w n : String.length (pad w n) = w.
Proof.
  revert n. induction w as [|w IH]; intros n; simpl; [reflexivity|].
  rewrite PyFacts.length_append. simpl. rewrite IH. lia.
Qed.

Lemma read_digits_snoc w acc s :
  read_digits (S w) acc s =
  match read_digits w acc s with
  | Some (a, String c r) =>
      match digit_value c with
      | Some v => Some (10 * a + v, r)
      | None => None
      end
  | _ => None
  end.
Proof.
  revert acc s. induction w as [|w IH]; intros acc s.
  - destruct s as [|c r]; [reflexivity|]. simpl. now destruct (digit_value c).
  - destruct s as [|c r]; [reflexivity|].
    change (read_digits (S (S w)) acc (String c r))
      with (match digit_value c with
            | Some v => read_digits (S w) (10 * acc + v) r
            | None => None
            end).
    change (read_digits (S w) acc (String c r))
      with (match digit_value c with
            | Some v => read_digits w (10 * acc + v) r
            | None => None
            end).
    destruct (digit_value c); [apply IH | reflexivity].
Qed.

Lemma pow10_succ w : 10 ^ Z.of_nat (S w) = 10 * 10 ^ Z.of_nat w.
Proof. rewrite Nat2Z.inj_succ, Z.pow_succ_r; lia. Qed.

Lemma pow10_pos w : 0 < 10 ^ Z.of_nat w.
Proof. apply Z.pow_pos_nonneg; lia. Qed.

Lemma pad_snoc w n rest :
  (pad (S w) n ++ rest)%string
  = (pad w (n / 10) ++ String (digit (n mod 10)) rest)%string.
Proof. simpl. now rewrite PyFacts.append_assoc. Qed.

(** Reading [w] digits off a zero-padded number gives the number back. *)
Lemma read_digits_pad w n acc rest :
  0 <= n < 10 ^ Z.of_nat w ->
  read_digits w acc (pad w n ++ rest) = Some (acc * 10 ^ Z.of_nat w + n, rest).
Proof.
  revert n acc rest. induction w as [|w IH]; intros n acc rest Hn.
  - simpl in *. f_equal. f_equal. lia.
  - rewrite pow10_succ in Hn. rewrite pad_snoc, read_digits_snoc.
    rewrite IH by (split; [apply Z.div_pos; lia | apply Z.div_lt_upper_bound; lia]).
    rewrite digit_value_digit by (pose proof (Z.mod_pos_bound n 10); lia).
    f_equal. f_equal. rewrite pow10_succ.
    pose proof (Z.div_mod n 10). lia.
Qed.

(** Zero-padded numbers of one width compare as texts the way they compare
    as numbers, whatever follows them. *)
Lemma compare_pad w a b s t :
  0 <= a < 10 ^ Z.of_nat w -> 0 <= b < 10 ^ Z.of_nat w ->
  String.compare (pad w a ++ s) (pad w b ++ t)
  = match a ?= b with
    | Eq => String.compare s t
    | c => c
    end.
Proof.
  revert a b s t. induction w as [|w IH]; intros a b s t Ha Hb.
  - simpl in *. replace a with 0 by lia. replace b with 0 by lia. reflexivity.
  - rewrite pow10_succ in Ha, Hb. rewrite !pad_snoc.
    rewrite IH by (split; [apply Z.div_pos; lia | apply Z.div_lt_upper_bound; lia]).
    pose proof (Z.div_mod a 10). pose proof (Z.div_mod b 10).
    pose proof (Z.mod_pos_bound a 10). pose proof (Z.mod_pos_bound b 10).
    destruct (Z.compare_spec (a / 10) (b / 10)) as [E|E|E].
    + change (String.compare (String ?x ?u) (String ?y ?v))
        with (match Ascii.compare x y with
              | Eq => String.compare u v
              | Lt => Lt
              | Gt => Gt
              end).
      rewrite compare_digit by lia.
      destruct (Z.compare_spec (a mod 10) (b mod 10));
        destruct (Z.compare_spec a b); try reflexivity; lia.
    + destruct (Z.compare_spec a b); try reflexivity; lia.
    + destruct (Z.compare_spec a b); try reflexivity; lia.
Qed.

Lemma read_pad4 n rest :
  0 <= n <= 9999 -> read_digits 4 0 (pad 4 n ++ rest) = Some (n, rest).
Proof. intros H. rewrite read_digits_pad by (simpl; lia). f_equal. Qed.

Lemma read_pad2 n rest :
  0 <= n <= 99 -> read_digits 2 0 (pad 2 n ++ rest) = Some (n, rest).
Proof. intros H. rewrite read_digits_pad by (simpl; lia). f_equal. Qed.

Lemma read_pad6 n rest :
  0 <= n <= 999999 -> read_digits 6 0 (pad 6 n ++ rest) = Some (n, rest).
Proof. intros H. rewrite read_digits_pad by (simpl; lia). f_equal. Qed.

Lemma isoformat_shape d :
  isoformat d =
  (pad 4 (year d) ++ String "-" (pad 2 (month d) ++ String "-" (pad 2 (day d)
   ++ String "T" (pad 2 (hour d) ++ String ":" (pad 2 (minute d)
   ++ String ":" (pad 2 (second d)
   ++ (if (microsecond d =? 0)%Z then "+00:00"
       else String "." (pad 6 (microsecond d) ++ "+00:00"))))))))%string.
Proof.
  unfold isoformat. destruct (microsecond d =? 0); reflexivity.
Qed.

(** [fromisoformat] reads back what [isoformat] wrote. *)
Lemma fromisoformat_isoformat d :
  valid d -> fromisoformat (isoformat d) = Some d.
Proof.
  intros (Hy & Hmo & Hd & Hh & Hmi & Hs & Hus).
  rewrite isoformat_shape. unfold fromisoformat.
  rewrite read_pad4 by lia. cbn [mbind option_bind expect Ascii.eqb Bool.eqb].
  rewrite read_pad2 by lia. cbn [mbind option_bind expect Ascii.eqb Bool.eqb].
  rewrite read_pad2 by lia. cbn [mbind option_bind expect Ascii.eqb Bool.eqb].
  rewrite read_pad2 by lia. cbn [mbind option_bind expect Ascii.eqb Bool.eqb].
  rewrite read_pad2 by lia. cbn [mbind option_bind expect Ascii.eqb Bool.eqb].
  rewrite read_pad2 by lia. cbn [mbind option_bind].
  destruct (Z.eqb_spec (microsecond d) 0) as [E|E].
  - simpl. destruct d; simpl in *; subst; reflexivity.
  - rewrite read_pad6 by lia. simpl. now destruct d.
Qed.

Lemma compare_cons c s t :
  String.compare (String c s) (String c t) = String.compare s t.
Proof.
  simpl. unfold Ascii.compare. now rewrite N.compare_refl.
Qed.

(** The binary order of the ISO texts is the chronological order. *)
Lemma compare_isoformat d1 d2 :
  valid d1 -> valid d2 ->
  String.compare (isoformat d1) (isoformat d2) = Datetime.compare d1 d2.
Proof.
  intros (Hy1 & Hmo1 & Hd1 & Hh1 & Hmi1 & Hs1 & Hus1)
         (Hy2 & Hmo2 & Hd2 & Hh2 & Hmi2 & Hs2 & Hus2).
  rewrite !isoformat_shape. unfold Datetime.compare, key. simpl lex_compare.
  rewrite compare_pad by (simpl; lia).
  destruct (year d1 ?= year d2); try reflexivity.
  rewrite compare_cons, compare_pad by (simpl; lia).
  destruct (month d1 ?= month d2); try reflexivity.
  rewrite compare_cons, compare_pad by (simpl; lia).
  destruct (day d1 ?= day d2); try reflexivity.
  rewrite compare_cons, compare_pad by (simpl; lia).
  destruct (hour d1 ?= hour d2); try reflexivity.
  rewrite compare_cons, compare_pad by (simpl; lia).
  destruct (minute d1 ?= minute d2); try reflexivity.
  rewrite compare_cons, compare_pad by (simpl; lia).
  destruct (second d1 ?= second d2); try reflexivity.
  destruct (Z.eqb_spec (microsecond d1) 0) as [E1|E1];
    destruct (Z.eqb_spec (microsecond d2) 0) as [E2|E2].
  - rewrite E1, E2. reflexivity.
  - rewrite E1. destruct (Z.compare_spec 0 (microsecond d2)); try lia. reflexivity.
  - rewrite E2. destruct (Z.compare_spec (microsecond d1) 0); try lia. reflexivity.
  - rewrite compare_cons, compare_pad by (simpl; lia).
    destruct (microsecond d1 ?= microsecond d2); reflexivity.
Qed.

Lemma compare_eq d1 d2 : Datetime.compare d1 d2 = Eq -> d1 = d2.
Proof.
  unfold Datetime.compare, key. simpl.
  destruct d1, d2; simpl.
  repeat match goal with
         | |- context [?a ?= ?b] => destruct (Z.compare_spec a b); try discriminate
         end.
  intros _. congruence.
Qed.

Lemma compare_antisym d1 d2 :
  Datetime.compare d2 d1 = CompOpp (Datetime.compare d1 d2).
Proof.
  unfold Datetime.compare, key. simpl.
  repeat match goal with
         | |- context [?a ?= ?b] =>
             lazymatch goal with
             | |- context [b ?= a] =>
                 rewrite (Z.compare_antisym a b); destruct (a ?= b); simpl;
                 try reflexivity
             end
         end.
Qed.

Lemma le_trans d1 d2 d3 : le d1 d2 -> le d2 d3 -> le d1 d3.
Proof.
  unfold le, Datetime.compare, key. simpl.
  repeat match goal with
         | |- context [?a ?= ?b] => destruct (Z.compare_spec a b)
         end; try congruence; try lia.
Qed.

Lemma le_lt_or_eq d1 d2 : le d1 d2 -> lt d1 d2 \/ d1 = d2.
Proof.
  unfold le, lt. destruct (Datetime.compare d1 d2) eqn:E; try congruence; auto.
  right. now apply compare_eq.
Qed.

End DatetimeFacts.

(** ** What one run of a handler does *)

Module ServerFacts.
Import Py PyFacts Server.

Section Runs.
Variable svc : Services.
Variable w : World.

Lemma analyze_image_run contents u db :
  analyze_image svc w contents u db =
  match png_of svc contents with
  | inl e => (inl (HTTPException 500 ("Error analyzing image: " ++ str_exn e)), db)
  | inr png =>
      let img_base64 := Base64.b64encode png in
      match send_message svc (image_message w u img_base64) with
      | inl e =>
          (inl (HTTPException 500 ("Error analyzing image: " ++ str_exn e)), db)
      | inr reply =>
          let analysis := image_analysis svc w u reply img_base64 in
          match store_fault w with
          | Some msg =>
              (inl (HTTPException 500 ("Error analyzing image: " ++ msg)), db)
          | None =>
              (inr (Analysis.model_dump_exclude "image_data" analysis),
               mkDb (users db) (medical_history db)
                    (analyses db ++ [analysis_doc analysis]))
          end
      end
  end.
Proof.
  unfold analyze_image, try_except, bind, lift, insert_one, raise, ret.
  destruct (png_of svc contents) as [e|png]; [reflexivity|].
  cbv zeta.
  destruct (send_message svc _) as [e|reply]; [reflexivity|].
  destruct (store_fault w); reflexivity.
Qed.

Lemma risk_assessment_run data u db :
  risk_assessment svc w data u db =
  match send_message svc (risk_message w data u) with
  | inl e =>
      (inl (HTTPException 500 ("Error in risk assessment: " ++ str_exn e)), db)
  | inr reply =>
      let analysis := risk_analysis w data u reply in
      match store_fault w with
      | Some msg =>
          (inl (HTTPException 500 ("Error in risk assessment: " ++ msg)), db)
      | None =>
          (inr (Analysis.model_dump analysis),
           mkDb (users db) (medical_history db)
                (analyses db ++ [analysis_doc analysis]))
      end
  end.
Proof.
  unfold risk_assessment, try_except, bind, lift, insert_one, raise, ret.
  destruct (send_message svc _) as [e|reply]; [reflexivity|].
  cbv zeta. destruct (store_fault w); reflexivity.
Qed.

Lemma create_medical_history_run data u db :
  create_medical_history w data u db =
  let kept := filter (fun d => matches "user_id" (VStr u) d = false)
                     (medical_history db) in
  match store_fault w with
  | Some msg => (inl (Error msg), mkDb (users db) kept (analyses db))
  | None =>
      (inr (new_history w data u),
       mkDb (users db) (kept ++ [history_doc (new_history w data u)]) (analyses db))
  end.
Proof.
  unfold create_medical_history, bind, delete_many, insert_one, ret. simpl.
  destruct (store_fault w); reflexivity.
Qed.

Lemma get_current_user_run tok db :
  get_current_user svc w tok db =
  match jwt_decode svc (now w) tok with
  | inl (ExpiredSignatureError _) => (inl (HTTPException 401 "Token expired"), db)
  | inl (InvalidTokenError _) => (inl (HTTPException 401 "Invalid token"), db)
  | inl e => (inl e, db)
  | inr payload =>
      match Payload.user_id payload with
      | Some u => if String.eqb u "" then (inl (HTTPException 401 "Invalid token"), db)
                  else (inr u, db)
      | None => (inl (HTTPException 401 "Invalid token"), db)
      end
  end.
Proof.
  unfold get_current_user, try_except, bind, lift, raise, ret.
  destruct (jwt_decode svc (now w) tok) as [[]|payload]; try reflexivity.
  destruct (Payload.user_id payload) as [u|]; simpl; [|reflexivity].
  destruct (String.eqb u ""); reflexivity.
Qed.

End Runs.

Lemma scan_level_cases (L : string) :
  (scan_level L = "high" <-> occurs "high risk" L \/ occurs "high-risk" L) /\
  (scan_level L = "moderate" <->
     ~ (occurs "high risk" L \/ occurs "high-risk" L) /\ occurs "moderate" L) /\
  (scan_level L = "low" <->
     ~ (occurs "high risk" L \/ occurs "high-risk" L) /\ ~ occurs "moderate" L) /\
  scan_level L ∈ ["high"; "moderate"; "low"].
Proof.
  unfold scan_level. rewrite <- !contains_spec, <- orb_true_iff.
  destruct (contains "high risk" L || contains "high-risk" L);
    destruct (contains "moderate" L);
    (repeat split; try discriminate; try reflexivity; try tauto;
     try (intros []; congruence); try set_solver).
Qed.

(** C6.  The level [analyze_image] derives from the model's reply is the
    scan of the lowercased reply: "high" when it holds "high risk" or
    "high-risk", otherwise "moderate" when it holds "moderate", otherwise
    "low"; it is always one of the three, and it is the level of the
    analysis the handler builds. *)
Theorem reply_level_is_scan (svc : Services) (w : World)
    (user_id ai_response img_base64 : string) :
  let response_lower := lower svc ai_response in
  let level := reply_risk_level svc ai_response in
  level = scan_level response_lower /\
  (level = "high" <->
     occurs "high risk" response_lower \/ occurs "high-risk" response_lower) /\
  (level = "moderate" <->
     ~ (occurs "high risk" response_lower \/ occurs "high-risk" response_lower)
     /\ occurs "moderate" response_lower) /\
  (level = "low" <->
     ~ (occurs "high risk" response_lower \/ occurs "high-risk" response_lower)
     /\ ~ occurs "moderate" response_lower) /\
  level ∈ ["high"; "moderate"; "low"] /\
  Analysis.risk_level (image_analysis svc w user_id ai_response img_base64) = level.
Proof.
  intros L level.
  assert (Hscan : level = scan_level L).
  { subst level. unfold reply_risk_level, scan_level. fold L.
    destruct (contains "high risk" L || contains "high-risk" L); [reflexivity|].
    destruct (contains "moderate risk" L) eqn:E; [|reflexivity].
    apply (contains_weaken "moderate" " risk") in E. now rewrite E. }
  destruct (scan_level_cases L) as (Hh & Hm & Hl & Hin).
  rewrite <- Hscan in Hh, Hm, Hl, Hin.
  split; [exact Hscan|]. split; [exact Hh|]. split; [exact Hm|].
  split; [exact Hl|]. split; [exact Hin | reflexivity].
Qed.

Example scan_examples :
  let svc := Stub.services (inr "") in
  reply_risk_level svc "Findings: HIGH-RISK mass, moderate density." = "high" /\
  reply_risk_level svc "Overall a Moderate Risk of malignancy." = "moderate" /\
  reply_risk_level svc "Moderately dense tissue." = "moderate" /\
  reply_risk_level svc "No high or elevated risk." = "low".
Proof. repeat split; reflexivity. Qed.

(** *** The image route: what is returned and what is stored *)

Lemma model_dump_fields (a : Analysis.t) (k : string) :
  Analysis.model_dump a !! k =
  if decide (k = "id") then Some (VStr (Analysis.id a))
  else if decide (k = "user_id") then Some (VStr (Analysis.user_id a))
  else if decide (k = "analysis_type") then Some (VStr (Analysis.analysis_type a))
  else if decide (k = "result") then Some (VStr (Analysis.result a))
  else if decide (k = "risk_level") then Some (VStr (Analysis.risk_level a))
  else if decide (k = "recommendations") then Some (VList (Analysis.recommendations a))
  else if decide (k = "image_data") then Some (opt_str (Analysis.image_data a))
  else if decide (k = "created_at") then Some (VDatetime (Analysis.created_at a))
  else None.
Proof.
  unfold Analysis.model_dump.
  repeat (rewrite lookup_insert; case_decide; [subst; simpl; reflexivity|];
          destruct (decide (k = _)); [congruence|]).
  apply lookup_empty.
Qed.

Lemma analysis_doc_lookup (a : Analysis.t) (k : string) :
  analysis_doc a !! k =
  if decide (k = "created_at")
  then Some (VStr (Datetime.isoformat (Analysis.created_at a)))
  else Analysis.model_dump a !! k.
Proof.
  unfold analysis_doc. cbv zeta. rewrite lookup_insert.
  destruct (decide (k = "created_at")), (decide ("created_at" = k)); congruence.
Qed.

Lemma excluded_body_lookup (a : Analysis.t) (k : string) :
  Analysis.model_dump_exclude "image_data" a !! k =
  if decide (k = "image_data") then None else Analysis.model_dump a !! k.
Proof.
  unfold Analysis.model_dump_exclude. rewrite lookup_delete.
  destruct (decide (k = "image_data")), (decide ("image_data" = k)); congruence.
Qed.

Lemma encoded_body_matches_doc (a : Analysis.t) (k : string) :
  k <> "image_data" ->
  jsonable_encoder (Analysis.model_dump_exclude "image_data" a) !! k
  = analysis_doc a !! k.
Proof.
  intros Hk. unfold jsonable_encoder.
  rewrite lookup_fmap, excluded_body_lookup, analysis_doc_lookup, model_dump_fields.
  repeat (case_decide; [subst; try congruence; reflexivity|]).
  reflexivity.
Qed.

Lemma slice_to_spec n s :
  exists rest, s = (slice_to n s ++ rest)%string /\
               String.length (slice_to n s) = Nat.min n (String.length s).
Proof.
  revert s. induction n as [|n IH]; intros [|c s]; simpl.
  - now exists ""%string.
  - now exists (String c s).
  - now exists ""%string.
  - destruct (IH s) as [rest [H1 H2]]. exists rest. split.
    + change (String c s = String c (slice_to n s ++ rest)%string).
      now rewrite <- H1.
    + now rewrite H2.
Qed.

(** C4.  When [analyze_image] succeeds, the returned body has no
    [image_data] field, the one document added to the analysis store holds
    as [image_data] exactly the first 1000 characters of the base64 text of
    the re-encoded image, and every other field of the response body equals
    the stored one ([created_at] is the datetime in the returned dict and its
    ISO text both in the encoded body and in the store). *)
Theorem analyze_image_strips_payload (svc : Services) (w : World)
    (contents : list Byte.byte) (u : string) (db db' : Db) (body : document) :
  analyze_image svc w contents u db = (inr body, db') ->
  body !! "image_data" = None /\
  jsonable_encoder body !! "image_data" = None /\
  exists png doc fingerprint rest,
    png_of svc contents = inr png /\
    db' = mkDb (users db) (medical_history db) (analyses db ++ [doc]) /\
    doc !! "image_data" = Some (VStr fingerprint) /\
    fingerprint = slice_to 1000 (Base64.b64encode png) /\
    Base64.b64encode png = (fingerprint ++ rest)%string /\
    String.length fingerprint = Nat.min 1000 (String.length (Base64.b64encode png)) /\
    (forall k, k <> "image_data" -> jsonable_encoder body !! k = doc !! k) /\
    (forall k, k <> "image_data" -> k <> "created_at" -> body !! k = doc !! k) /\
    body !! "created_at" = Some (VDatetime (now w)) /\
    doc !! "created_at" = Some (VStr (Datetime.isoformat (now w))).
Proof.
  rewrite analyze_image_run.
  destruct (png_of svc contents) as [e|png]; [discriminate|]. cbv zeta.
  destruct (send_message svc _) as [e|reply]; [discriminate|].
  destruct (store_fault w); [discriminate|].
  intros H. injection H as <- <-.
  set (a := image_analysis svc w u reply (Base64.b64encode png)).
  split; [now rewrite excluded_body_lookup|].
  split; [unfold jsonable_encoder; now rewrite lookup_fmap, excluded_body_lookup|].
  destruct (slice_to_spec 1000 (Base64.b64encode png)) as [rest [Hrest Hlen]].
  exists png, (analysis_doc a), (slice_to 1000 (Base64.b64encode png)), rest.
  repeat split; try assumption.
  - intros k Hk. now apply encoded_body_matches_doc.
  - intros k Hk Hc. rewrite excluded_body_lookup, analysis_doc_lookup.
    repeat case_decide; congruence.
Qed.

Lemma analyze_image_strips_payload_witness :
  let svc := Stub.services (inr "Low risk. No abnormality seen.") in
  let w := Stub.world Stub.at_2024_03_09 in
  let analysis := image_analysis svc w "u1" "Low risk. No abnormality seen." "TWFu" in
  analyze_image svc w [Byte.x4d; Byte.x61; Byte.x6e] "u1" empty_db
  = (inr (Analysis.model_dump_exclude "image_data" analysis),
     mkDb [] [] [analysis_doc analysis])
  /\ Analysis.model_dump_exclude "image_data" analysis !! "image_data" = None.
Proof.
  intros svc w analysis.
  assert (E : analyze_image svc w [Byte.x4d; Byte.x61; Byte.x6e] "u1" empty_db
              = (inr (Analysis.model_dump_exclude "image_data" analysis),
                 mkDb [] [] [analysis_doc analysis]))
    by reflexivity.
  split; [exact E|].
  exact (proj1 (analyze_image_strips_payload svc w _ "u1" empty_db _ _ E)).
Defined.

Example analyze_image_stored_fingerprint :
  let svc := Stub.services (inr "Low risk. No abnormality seen.") in
  let w := Stub.world Stub.at_2024_03_09 in
  (fun d => d !! "image_data") <$> analyses
     (snd (analyze_image svc w [Byte.x4d; Byte.x61; Byte.x6e] "u1" empty_db))
  = [Some (VStr "TWFu")].
Proof. vm_compute. reflexivity. Qed.

(** *** Failures of the two AI-backed routes *)

Lemma app_singleton_neq {A} (l : list A) (x : A) : (l ++ [x])%list <> l.
Proof.
  intros H. apply (f_equal length) in H. rewrite length_app in H. simpl in H. lia.
Qed.

(** C5.  In [analyze_image] and in [risk_assessment], when the call to the
    language model fails, or the write that follows it, the store is left as
    it was and the caller gets a 500 whose detail carries the text of the
    underlying error; whenever the handler fails the store is unchanged, and
    an analysis is added exactly when the handler returns. *)
Theorem orchestrator_failure_semantics (svc : Services) (w : World)
    (u : string) (db : Db) :
  (forall contents png,
     png_of svc contents = inr png ->
     let out := analyze_image svc w contents u db in
     let message := image_message w u (Base64.b64encode png) in
     (forall e, send_message svc message = inl e ->
        out = (inl (HTTPException 500 ("Error analyzing image: " ++ str_exn e)), db)) /\
     (forall reply msg, send_message svc message = inr reply ->
        store_fault w = Some msg ->
        out = (inl (HTTPException 500 ("Error analyzing image: " ++ msg)), db))) /\
  (forall contents,
     let out := analyze_image svc w contents u db in
     (forall e, fst out = inl e ->
        snd out = db /\ exists cause, e = HTTPException 500 ("Error analyzing image: " ++ cause)) /\
     ((exists body, fst out = inr body) <->
      (exists doc, analyses (snd out) = (analyses db ++ [doc])%list))) /\
  (forall data,
     let out := risk_assessment svc w data u db in
     let message := risk_message w data u in
     (forall e, send_message svc message = inl e ->
        out = (inl (HTTPException 500 ("Error in risk assessment: " ++ str_exn e)), db)) /\
     (forall reply msg, send_message svc message = inr reply ->
        store_fault w = Some msg ->
        out = (inl (HTTPException 500 ("Error in risk assessment: " ++ msg)), db)) /\
     (forall e, fst out = inl e ->
        snd out = db /\ exists cause, e = HTTPException 500 ("Error in risk assessment: " ++ cause)) /\
     ((exists body, fst out = inr body) <->
      (exists doc, analyses (snd out) = (analyses db ++ [doc])%list))).
Proof.
  split; [|split].
  - intros contents png Hpng out message. subst out message.
    rewrite analyze_image_run, Hpng. cbv zeta. split.
    + intros e ->. reflexivity.
    + intros reply msg -> ->. reflexivity.
  - intros contents out. subst out. rewrite analyze_image_run.
    destruct (png_of svc contents) as [e0|png]; cbv zeta;
      [|destruct (send_message svc _) as [e0|reply];
        [|destruct (store_fault w) as [msg|]]]; simpl.
    all: split;
      [ intros e He; try discriminate; injection He as <-; split; eauto
      | split;
        [ intros [body Hb]; try discriminate; eauto
        | intros [doc Hd]; try (symmetry in Hd; now apply app_singleton_neq in Hd);
          eauto ] ].
  - intros data out message. subst out message. rewrite risk_assessment_run.
    destruct (send_message svc _) as [e0|reply]; cbv zeta;
      [|destruct (store_fault w) as [msg|]]; simpl.
    all: split; [intros e He; try discriminate; try (injection He as <-); reflexivity|].
    all: split; [intros r m Hr Hm; try discriminate; try congruence|].
    all: split;
      [ intros e He; try discriminate; injection He as <-; split; eauto
      | split;
        [ intros [body Hb]; try discriminate; eauto
        | intros [doc Hd]; try (symmetry in Hd; now apply app_singleton_neq in Hd);
          eauto ] ].
Qed.

Lemma orchestrator_failure_semantics_witness :
  let svc := Stub.services (inl (Error "upstream timed out")) in
  let w := Stub.world Stub.at_2024_03_09 in
  analyze_image svc w [Byte.x4d] "u1" empty_db
  = (inl (HTTPException 500 "Error analyzing image: upstream timed out"), empty_db).
Proof.
  intros svc w.
  exact (proj1 (proj1 (orchestrator_failure_semantics svc w "u1" empty_db)
                  [Byte.x4d] [Byte.x4d] eq_refl)
           (Error "upstream timed out") eq_refl).
Defined.

Example risk_assessment_failure :
  let svc := Stub.services (inl (Error "upstream timed out")) in
  let w := Stub.world Stub.at_2024_03_09 in
  risk_assessment svc w (RiskAssessmentRequest.mk 45 true false true None None None)
                  "u1" empty_db
  = (inl (HTTPException 500 "Error in risk assessment: upstream timed out"), empty_db).
Proof. reflexivity. Qed.

Example store_refuses_write :
  let svc := Stub.services (inr "Low risk.") in
  let w := Stub.faulty_world Stub.at_2024_03_09 "connection reset" in
  analyze_image svc w [Byte.x4d] "u1" empty_db
  = (inl (HTTPException 500 "Error analyzing image: connection reset"), empty_db).
Proof. reflexivity. Qed.

(** *** The prompt of the risk route *)

Lemma int_or_na_cases (v : option Z) :
  int_or_na v = match v with
                | Some n => if n =? 0 then "N/A" else str_of_int n
                | None => "N/A"
                end.
Proof.
  unfold int_or_na, truthy_int.
  destruct v as [n|]; [|reflexivity]. now destruct (n =? 0).
Qed.

Lemma str_or_na_cases (v : option string) :
  str_or_na v = match v with
                | Some s => if String.eqb s "" then "N/A" else s
                | None => "N/A"
                end.
Proof.
  unfold str_or_na, truthy_str.
  destruct v as [s|]; [|reflexivity]. now destruct (String.eqb s "").
Qed.

Lemma occurs_here (needle after : string) : occurs needle (needle ++ after).
Proof. now exists ""%string, after. Qed.

Lemma occurs_skip (needle a s : string) : occurs needle s -> occurs needle (a ++ s).
Proof.
  intros [before [after ->]]. exists (a ++ before)%string, after.
  now rewrite append_assoc.
Qed.

Lemma risk_prompt_shape (data : RiskAssessmentRequest.t) :
  let line label text := (label ++ text ++ nl)%string in
  risk_prompt data =
  (("Based on the following patient information, provide a detailed breast cancer risk assessment:"
    ++ nl ++ "        " ++ nl)
   ++ line "Age: " (str_of_int (RiskAssessmentRequest.age data))
   ++ line "Family History: " (yes_no (RiskAssessmentRequest.family_history data))
   ++ line "Previous Biopsies: " (yes_no (RiskAssessmentRequest.previous_biopsies data))
   ++ line "Hormone Therapy: " (yes_no (RiskAssessmentRequest.hormone_therapy data))
   ++ line "First Pregnancy Age: "
           (int_or_na (RiskAssessmentRequest.first_pregnancy_age data))
   ++ line "Menstruation Start Age: "
           (int_or_na (RiskAssessmentRequest.menstruation_age data))
   ++ line "Breast Density: " (str_or_na (RiskAssessmentRequest.breast_density data))
   ++ nl
   ++ "Provide a comprehensive risk analysis with specific recommendations.")%string.
Proof. intros line. unfold line, risk_prompt. now rewrite !append_assoc. Qed.

(** Every field of the request has its line in the prompt. *)
Lemma risk_prompt_lines (data : RiskAssessmentRequest.t) :
  let line label text := (label ++ text ++ nl)%string in
  occurs (line "Age: " (str_of_int (RiskAssessmentRequest.age data))) (risk_prompt data) /\
  occurs (line "Family History: " (yes_no (RiskAssessmentRequest.family_history data)))
         (risk_prompt data) /\
  occurs (line "Previous Biopsies: " (yes_no (RiskAssessmentRequest.previous_biopsies data)))
         (risk_prompt data) /\
  occurs (line "Hormone Therapy: " (yes_no (RiskAssessmentRequest.hormone_therapy data)))
         (risk_prompt data) /\
  occurs (line "First Pregnancy Age: "
               (int_or_na (RiskAssessmentRequest.first_pregnancy_age data)))
         (risk_prompt data) /\
  occurs (line "Menstruation Start Age: "
               (int_or_na (RiskAssessmentRequest.menstruation_age data)))
         (risk_prompt data) /\
  occurs (line "Breast Density: " (str_or_na (RiskAssessmentRequest.breast_density data)))
         (risk_prompt data).
Proof.
  intros line. rewrite (risk_prompt_shape data). cbv zeta. fold line.
  repeat split; repeat first [apply occurs_here | apply occurs_skip].
Qed.

(** An optional field that is absent is written as "N/A", and one that is
    present with a non-zero number or a non-empty text as that value. *)
Lemma optional_rendering :
  int_or_na None = "N/A" /\ str_or_na None = "N/A" /\
  (forall n, n <> 0 -> int_or_na (Some n) = str_of_int n) /\
  (forall s, s <> "" -> str_or_na (Some s) = s).
Proof.
  repeat split.
  - intros n Hn. rewrite int_or_na_cases.
    destruct (Z.eqb_spec n 0); [contradiction | reflexivity].
  - intros s Hs. rewrite str_or_na_cases.
    destruct (String.eqb_spec s ""); [contradiction | reflexivity].
Qed.

(** C9 is not what the code does for a field that is present but false in
    Python's sense: a first-pregnancy or menstruation age of 0 and an empty
    breast-density text are written as the placeholder, not as the value.
    The prompt for such a request, evaluated. *)
Theorem falsy_optionals_render_placeholder :
  let data := RiskAssessmentRequest.mk 45 true false true (Some 0) (Some 0) (Some "") in
  risk_prompt data =
    ("Based on the following patient information, provide a detailed breast cancer risk assessment:"
     ++ nl ++ "        " ++ nl
     ++ "Age: 45" ++ nl
     ++ "Family History: Yes" ++ nl
     ++ "Previous Biopsies: No" ++ nl
     ++ "Hormone Therapy: Yes" ++ nl
     ++ "First Pregnancy Age: N/A" ++ nl
     ++ "Menstruation Start Age: N/A" ++ nl
     ++ "Breast Density: N/A" ++ nl
     ++ nl
     ++ "Provide a comprehensive risk analysis with specific recommendations.")%string
  /\ contains "First Pregnancy Age: 0" (risk_prompt data) = false
  /\ contains "Menstruation Start Age: 0" (risk_prompt data) = false
  /\ int_or_na (Some 0) = "N/A" /\ str_of_int 0 = "0"
  /\ str_or_na (Some "") = "N/A".
Proof. vm_compute. repeat split; reflexivity. Qed.

(** *** Registration, login and the bearer token *)

Lemma serve_unauthorized (svc : Services) (w : World) tok r db e :
  get_current_user svc w tok db = (inl e, db) ->
  serve svc w tok r db = (inl e, db).
Proof.
  intros H. destruct r; unfold serve, protected, bind; now rewrite H.
Qed.

Lemma head_filter_Some {A} (P : A -> Prop) `{forall x, Decision (P x)}
    (l : list A) (x : A) :
  x ∈ l -> P x -> exists y, head (filter P l) = Some y /\ P y /\ y ∈ l.
Proof.
  intros Hin HP.
  assert (Hx : x ∈ filter P l) by (apply list_elem_of_filter; auto).
  destruct (filter P l) as [|y l'] eqn:E; [inversion Hx|].
  exists y. split; [reflexivity|].
  assert (Hy : y ∈ filter P l) by (rewrite E; left).
  apply list_elem_of_filter in Hy. exact Hy.
Qed.

Lemma head_filter_None {A} (P : A -> Prop) `{forall x, Decision (P x)}
    (l : list A) :
  (forall x, x ∈ l -> ~ P x) -> head (filter P l) = None.
Proof.
  intros Hnone. destruct (filter P l) as [|y l'] eqn:E; [reflexivity|].
  assert (Hy : y ∈ filter P l) by (rewrite E; left).
  apply list_elem_of_filter in Hy. destruct Hy as [HP Hin].
  now apply Hnone in Hin.
Qed.

Lemma matches_true field v doc :
  matches field v doc = true <-> doc !! field = Some v.
Proof. unfold matches. apply bool_decide_eq_true. Qed.

Lemma matches_false field v doc :
  matches field v doc = false <-> doc !! field <> Some v.
Proof. unfold matches. apply bool_decide_eq_false. Qed.

(** C8.  [register] with an email some stored user already has answers 400
    and leaves the store as it was; [login] answers 401 for an email no
    stored user has and for a password the stored hash does not verify;
    every protected route answers 401, with the store untouched, when
    decoding the token reports it expired or otherwise invalid. *)
Theorem auth_rejections (svc : Services) (w : World) (db : Db) :
  (forall user_data existing,
     existing ∈ users db ->
     existing !! "email" = Some (VStr (UserCreate.email user_data)) ->
     register svc w user_data db
     = (inl (HTTPException 400 "Email already registered"), db)) /\
  (forall credentials,
     (forall d, d ∈ users db ->
                d !! "email" <> Some (VStr (UserLogin.email credentials))) ->
     login svc w credentials db = (inl (HTTPException 401 "Invalid credentials"), db)) /\
  (forall credentials user_doc hashed,
     head (filter (fun d => matches "email" (VStr (UserLogin.email credentials)) d = true)
                  (users db)) = Some user_doc ->
     user_doc !! "password" = Some (VStr hashed) ->
     pwd_verify svc (UserLogin.password credentials) hashed = false ->
     login svc w credentials db = (inl (HTTPException 401 "Invalid credentials"), db)) /\
  (forall token r msg,
     jwt_decode svc (now w) token = inl (ExpiredSignatureError msg) ->
     serve svc w token r db = (inl (HTTPException 401 "Token expired"), db)) /\
  (forall token r msg,
     jwt_decode svc (now w) token = inl (InvalidTokenError msg) ->
     serve svc w token r db = (inl (HTTPException 401 "Invalid token"), db)).
Proof.
  repeat split.
  - intros user_data existing Hin Hmail.
    unfold register, bind, find_one. simpl.
    destruct (head_filter_Some
                (fun d => matches "email" (VStr (UserCreate.email user_data)) d = true)
                (users db) existing Hin) as [y [-> _]];
      [now apply matches_true | reflexivity].
  - intros credentials Hnone.
    unfold login, bind, find_one. simpl.
    rewrite head_filter_None; [reflexivity|].
    intros d Hd Hm. apply matches_true in Hm. now apply (Hnone d).
  - intros credentials user_doc hashed Hfound Hpw Hverify.
    unfold login, bind, find_one. simpl. rewrite Hfound, Hpw. simpl.
    unfold verify_password. now rewrite Hverify.
  - intros token r msg Hdec. apply serve_unauthorized.
    now rewrite get_current_user_run, Hdec.
  - intros token r msg Hdec. apply serve_unauthorized.
    now rewrite get_current_user_run, Hdec.
Qed.

Lemma auth_rejections_witness :
  let svc := Stub.services (inr "") in
  let w := Stub.world Stub.at_2024_03_09 in
  let alice := UserCreate.mk "alice@example.com" "Alice" "correct horse" in
  let db1 := snd (register svc w alice empty_db) in
  register svc w alice db1
  = (inl (HTTPException 400 "Email already registered"), db1).
Proof.
  intros svc w alice db1.
  set (user := User.mk (uuid4 w 0) "alice@example.com" "Alice" (now w)).
  set (user_doc :=
         <["password" := VStr (hash_password svc w "correct horse")]>
           (<["created_at" := VStr (Datetime.isoformat (now w))]>
              (User.model_dump user))).
  apply (proj1 (auth_rejections svc w db1) alice user_doc).
  - change (users db1) with [user_doc]. left.
  - reflexivity.
Defined.

Example second_registration_and_bad_logins :
  let svc := Stub.services (inr "") in
  let w := Stub.world Stub.at_2024_03_09 in
  let alice := UserCreate.mk "alice@example.com" "Alice" "correct horse" in
  let db1 := snd (register svc w alice empty_db) in
  length (users db1) = 1%nat /\
  snd (register svc w alice db1) = db1 /\
  fst (login svc w (UserLogin.mk "alice@example.com" "wrong") db1)
    = inl (HTTPException 401 "Invalid credentials") /\
  fst (login svc w (UserLogin.mk "bob@example.com" "correct horse") db1)
    = inl (HTTPException 401 "Invalid credentials") /\
  (exists r, fst (login svc w (UserLogin.mk "alice@example.com" "correct horse") db1)
             = inr r) /\
  serve svc w "expired" GetAnalyses db1 = (inl (HTTPException 401 "Token expired"), db1) /\
  serve svc w "forged" (PostAnalyzeImage [Byte.x4d]) db1
    = (inl (HTTPException 401 "Invalid token"), db1).
Proof.
  vm_compute. repeat split; try reflexivity. eexists. reflexivity.
Qed.

(** *** What a request can change in the store *)

Lemma get_current_user_outcome (svc : Services) (w : World) tok db :
  (exists e, get_current_user svc w tok db = (inl e, db)) \/
  (exists u, get_current_user svc w tok db = (inr u, db)).
Proof.
  rewrite get_current_user_run.
  destruct (jwt_decode svc (now w) tok) as [[]|payload]; eauto.
  destruct (Payload.user_id payload) as [u|]; eauto.
  destruct (String.eqb u ""); eauto.
Qed.

Lemma register_keeps (svc : Services) (w : World) user_data db :
  medical_history (snd (register svc w user_data db)) = medical_history db /\
  analyses (snd (register svc w user_data db)) = analyses db.
Proof.
  unfold register, bind, find_one, insert_one, raise, ret. simpl.
  destruct (head _); simpl; [auto|].
  destruct (store_fault w); simpl; auto.
Qed.

Lemma bind_lift {A B} (r : exn + A) (k : A -> M B) db :
  bind (lift r) k db = match r with
                       | inl e => (inl e, db)
                       | inr a => k a db
                       end.
Proof. now destruct r. Qed.

Ltac lifted_step :=
  rewrite bind_lift;
  match goal with
  | |- snd (match ?r with inl _ => _ | inr _ => _ end) = _ =>
      destruct r; [reflexivity|]
  end.

Lemma login_keeps (svc : Services) (w : World) credentials db :
  snd (login svc w credentials db) = db.
Proof.
  unfold login. unfold bind at 1. unfold find_one at 1.
  destruct (head _) as [user_doc|]; [|reflexivity].
  lifted_step.
  destruct (negb _); [reflexivity|].
  repeat lifted_step. reflexivity.
Qed.

Lemma get_analyses_keeps u db :
  snd (get_analyses u db) = db.
Proof.
  unfold get_analyses, bind, find, lift, raise, ret. simpl.
  now destruct (for_each _ _).
Qed.

Lemma get_me_keeps u db :
  snd (get_me u db) = db.
Proof.
  unfold get_me, bind, find_one, raise, ret. simpl. now destruct (head _).
Qed.

(** The medical-history collection changes only by the replace of
    [create_medical_history]; the analysis collection only grows, by one
    document stamped with the time of the request. *)
Lemma exec_effect (svc : Services) (w : World) (c : call) (db : Db) :
  let db' := exec svc w c db in
  (medical_history db' = medical_history db \/
   exists u tail,
     medical_history db'
     = (filter (fun d => matches "user_id" (VStr u) d = false) (medical_history db)
        ++ tail)%list
     /\ (tail = [] \/ exists data, tail = [history_doc (new_history w data u)])) /\
  (analyses db' = analyses db \/
   exists a, Analysis.created_at a = now w /\
             analyses db' = (analyses db ++ [analysis_doc a])%list).
Proof.
  destruct c as [user_data|credentials|tok r]; simpl.
  - destruct (register_keeps svc w user_data db) as [-> ->]. auto.
  - rewrite login_keeps. auto.
  - unfold serve.
    destruct (get_current_user_outcome svc w tok db) as [[e H]|[u H]];
      destruct r; unfold protected, bind; rewrite H; simpl; auto.
    + unfold fmap_reply, bind. destruct (get_me u db) as [[?|?] db1] eqn:E;
        pose proof (get_me_keeps u db) as K; rewrite E in K; simpl in *;
        subst; auto.
    + unfold fmap_reply, bind. rewrite create_medical_history_run. cbv zeta.
      destruct (store_fault w); simpl; (split; [right|auto]).
      * exists u, []. rewrite app_nil_r. auto.
      * exists u, [history_doc (new_history w data u)]. eauto.
    + unfold fmap_reply, bind. rewrite analyze_image_run.
      destruct (png_of svc file) as [?|png]; simpl; auto.
      destruct (send_message svc _) as [?|reply]; simpl; auto.
      destruct (store_fault w); simpl; auto.
      split; [auto|right]. eexists. split; [|reflexivity]. reflexivity.
    + unfold fmap_reply, bind. rewrite risk_assessment_run.
      destruct (send_message svc _) as [?|reply]; simpl; auto.
      destruct (store_fault w); simpl; auto.
      split; [auto|right]. eexists. split; [|reflexivity]. reflexivity.
    + unfold fmap_reply, bind.
      destruct (get_analyses u db) as [[?|?] db1] eqn:E;
        pose proof (get_analyses_keeps u db) as K; rewrite E in K; simpl in *;
        subst; auto.
Qed.

(** *** One medical history per user *)

Lemma history_doc_owner (w : World) data u :
  history_doc (new_history w data u) !! "user_id" = Some (VStr u).
Proof. reflexivity. Qed.

Lemma history_doc_fields (w : World) data u k v :
  MedicalHistoryCreate.model_dump data !! k = Some v ->
  history_doc (new_history w data u) !! k = Some v.
Proof.
  unfold history_doc, new_history, MedicalHistory.model_dump,
    MedicalHistoryCreate.model_dump. cbv zeta. simpl.
  rewrite !lookup_insert.
  repeat (case_decide; [subst; try (intros; congruence)|]).
  all: repeat (case_decide; try congruence).
  all: rewrite ?lookup_empty; try congruence.
Qed.

Lemma owned_by_app u (l1 l2 : list document) :
  owned_by u (l1 ++ l2) = (owned_by u l1 ++ owned_by u l2)%list.
Proof. apply filter_app. Qed.

Lemma owned_by_after_delete u u' (l : list document) :
  owned_by u (filter (fun d => matches "user_id" (VStr u') d = false) l)
  = if decide (u = u') then [] else owned_by u l.
Proof.
  unfold owned_by. induction l as [|d l IH]; [now destruct (decide _)|].
  rewrite (filter_cons (fun d => matches "user_id" (VStr u') d = false)).
  rewrite (filter_cons (fun d => matches "user_id" (VStr u) d = true) d l).
  destruct (decide (matches "user_id" (VStr u') d = false)) as [Hf|Hf].
  - rewrite filter_cons, IH.
    destruct (decide (u = u')) as [->|Hne].
    + destruct (decide _) as [Ht|_]; [congruence | reflexivity].
    + reflexivity.
  - rewrite IH. apply not_false_is_true in Hf.
    destruct (decide (u = u')) as [->|Hne]; [reflexivity|].
    destruct (decide _) as [Ht|_]; [|reflexivity].
    apply matches_true in Hf. apply matches_true in Ht. congruence.
Qed.

Lemma owned_by_history_doc u u' (w : World) data :
  owned_by u [history_doc (new_history w data u')]
  = if decide (u = u') then [history_doc (new_history w data u')] else [].
Proof.
  unfold owned_by. rewrite filter_cons, filter_nil.
  destruct (decide (matches _ _ _ = true)) as [Ht|Hf].
  - apply matches_true in Ht. rewrite history_doc_owner in Ht.
    destruct (decide (u = u')); congruence.
  - destruct (decide (u = u')) as [->|]; [|reflexivity].
    exfalso. apply Hf. apply matches_true. apply history_doc_owner.
Qed.

Lemma reachable_one_history (svc : Services) (db : Db) :
  reachable svc db -> forall u, (length (owned_by u (medical_history db)) <= 1)%nat.
Proof.
  induction 1 as [|db w c Hreach IH Hclock]; intros u; [simpl; lia|].
  destruct (exec_effect svc w c db) as [[-> | (u' & tail & -> & Htail)] _];
    [apply IH|].
  rewrite owned_by_app, owned_by_after_delete, length_app.
  destruct Htail as [-> | [data ->]].
  - simpl. destruct (decide (u = u')); simpl; [lia|]. specialize (IH u). lia.
  - rewrite owned_by_history_doc.
    destruct (decide (u = u')); simpl; [lia|]. specialize (IH u). lia.
Qed.

(** C2.  [create_medical_history] removes every stored history of the user
    and then appends the new one.  Hence every store the service can reach
    holds at most one history per user, and after two creates for one user
    that user has exactly one history, the one of the second call, which
    carries every field of that call's data. *)
Theorem one_history_per_user (svc : Services) :
  (forall w data u db,
     store_fault w = None ->
     create_medical_history w data u db
     = (inr (new_history w data u),
        mkDb (users db)
             (filter (fun d => matches "user_id" (VStr u) d = false) (medical_history db)
              ++ [history_doc (new_history w data u)])
             (analyses db))) /\
  (forall db, reachable svc db ->
     forall u, (length (owned_by u (medical_history db)) <= 1)%nat) /\
  (forall w1 w2 data1 data2 u db,
     store_fault w1 = None -> store_fault w2 = None ->
     let db1 := snd (create_medical_history w1 data1 u db) in
     let db2 := snd (create_medical_history w2 data2 u db1) in
     let latest := history_doc (new_history w2 data2 u) in
     owned_by u (medical_history db2) = [latest] /\
     (forall k v, MedicalHistoryCreate.model_dump data2 !! k = Some v ->
                  latest !! k = Some v) /\
     fst (create_medical_history w2 data2 u db1) = inr (new_history w2 data2 u)).
Proof.
  split; [|split].
  - intros w data u db Hw. rewrite create_medical_history_run. cbv zeta.
    now rewrite Hw.
  - apply reachable_one_history.
  - intros w1 w2 data1 data2 u db H1 H2 db1 db2 latest. subst db1 db2 latest.
    rewrite !create_medical_history_run. cbv zeta. rewrite H1, H2. simpl.
    split; [|split; [apply history_doc_fields | reflexivity]].
    rewrite owned_by_app, owned_by_after_delete, owned_by_history_doc.
    destruct (decide (u = u)); [reflexivity | contradiction].
Qed.

(** *** Listing the analyses of a user *)

Lemma text_le_total a b : text_le a b = false -> text_le b a = true.
Proof.
  unfold text_le. rewrite (String.compare_antisym a b).
  destruct (String.compare b a); simpl; congruence.
Qed.

Lemma insert_desc_perm d l : insert_desc d l ≡ₚ d :: l.
Proof.
  induction l as [|x l IH]; simpl; [reflexivity|].
  destruct (text_le _ _); [reflexivity|].
  rewrite IH. apply Permutation_swap.
Qed.

Lemma sort_desc_perm l : sort_desc l ≡ₚ l.
Proof.
  unfold sort_desc. induction l as [|x l IH]; simpl; [reflexivity|].
  now rewrite insert_desc_perm, IH.
Qed.

Lemma insert_desc_sorted d l :
  Sorted not_older l -> Sorted not_older (insert_desc d l).
Proof.
  induction l as [|x l IH]; intros Hs; simpl.
  - repeat constructor.
  - destruct (text_le (created_at_key x) (created_at_key d)) eqn:E.
    + constructor; [exact Hs | constructor; exact E].
    + apply Sorted_inv in Hs. destruct Hs as [Hs Hhd].
      constructor; [apply IH, Hs|].
      destruct l as [|y l]; simpl.
      * constructor. now apply text_le_total.
      * destruct (text_le (created_at_key y) (created_at_key d));
          constructor; [now apply text_le_total | now inversion Hhd].
Qed.

Lemma sort_desc_sorted l : Sorted not_older (sort_desc l).
Proof.
  unfold sort_desc. induction l as [|x l IH]; simpl;
    [constructor | now apply insert_desc_sorted].
Qed.

Lemma Sorted_take {A} (R : A -> A -> Prop) n (l : list A) :
  Sorted R l -> Sorted R (take n l).
Proof.
  revert l. induction n as [|n IH]; intros [|x l] Hs; simpl; try constructor.
  - apply IH. now apply Sorted_inv in Hs.
  - apply Sorted_inv in Hs. destruct Hs as [_ Hhd].
    destruct l as [|y l]; destruct n; simpl; constructor. now inversion Hhd.
Qed.

Lemma iso_stamped_all (l : list document) :
  Forall iso_stamped l -> exists stamps, Forall2 stamped l stamps.
Proof.
  induction 1 as [|d l [t Ht] _ [stamps IH]].
  - exists []. constructor.
  - exists (t :: stamps). now constructor.
Qed.

Lemma for_each_stamped (l : list document) stamps :
  Forall2 stamped l stamps ->
  for_each with_datetime l
  = inr (zip_with (fun d t => <["created_at" := VDatetime t]> d) l stamps).
Proof.
  induction 1 as [|d t l stamps [Hv Hd] _ IH]; [reflexivity|].
  simpl. unfold with_datetime at 1.
  rewrite Hd, DatetimeFacts.fromisoformat_isoformat by exact Hv.
  now rewrite IH.
Qed.

Lemma not_older_stamped x y tx ty :
  stamped x tx -> stamped y ty -> not_older x y -> not_before tx ty.
Proof.
  intros [Hvx Hx] [Hvy Hy]. unfold not_older, not_before, created_at_key, text_le.
  rewrite Hx, Hy, DatetimeFacts.compare_isoformat by assumption.
  unfold Datetime.le. now destruct (Datetime.compare ty tx).
Qed.

Lemma sorted_stamps (l : list document) stamps :
  Forall2 stamped l stamps -> Sorted not_older l -> Sorted not_before stamps.
Proof.
  induction 1 as [|d t l stamps Hd Hl IH]; intros Hs; [constructor|].
  apply Sorted_inv in Hs. destruct Hs as [Hs Hhd].
  constructor; [now apply IH|].
  destruct Hl as [|d' t' l' stamps' Hd' _]; constructor.
  inversion Hhd; subst. eapply not_older_stamped; eauto.
Qed.

#[local] Instance not_before_trans : Transitive not_before.
Proof. intros a b c Hab Hbc. unfold not_before in *. eapply DatetimeFacts.le_trans; eauto. Qed.

Lemma strictly_sorted_stamps (stamps : list Datetime.datetime) :
  StronglySorted not_before stamps -> NoDup stamps -> StronglySorted after stamps.
Proof.
  induction 1 as [|t l Hs IH Hall]; intros Hnd; [constructor|].
  apply NoDup_cons in Hnd. destruct Hnd as [Hnotin Hnd].
  constructor; [now apply IH|].
  rewrite Forall_forall in *. intros t' Hin.
  destruct (DatetimeFacts.le_lt_or_eq t' t (Hall t' Hin)) as [Hlt | ->];
    [exact Hlt | contradiction].
Qed.

Lemma reachable_iso_stamped (svc : Services) (db : Db) :
  reachable svc db -> Forall iso_stamped (analyses db).
Proof.
  induction 1 as [|db w c Hreach IH Hclock]; [constructor|].
  destruct (exec_effect svc w c db) as [_ [-> | (a & Ha & ->)]]; [exact IH|].
  apply Forall_app. split; [exact IH|].
  constructor; [|constructor].
  exists (now w). split; [exact Hclock|].
  rewrite analysis_doc_lookup, Ha. reflexivity.
Qed.

Lemma owned_by_spec u (l : list document) d :
  d ∈ owned_by u l <-> d ∈ l /\ d !! "user_id" = Some (VStr u).
Proof.
  unfold owned_by. rewrite list_elem_of_filter, matches_true. tauto.
Qed.

Lemma get_analyses_run u db :
  get_analyses u db =
  match for_each with_datetime (take 100 (sort_desc (owned_by u (analyses db)))) with
  | inl e => (inl e, db)
  | inr l => (inr l, db)
  end.
Proof.
  unfold get_analyses, bind, find, lift, raise, ret, owned_by. simpl.
  now destruct (for_each _ _).
Qed.

(** C3.  In every store the service can reach, [get_analyses] returns, for
    any user: at most 100 records (all of them when the user has at most
    100); each one a stored analysis of that user with its [created_at] read
    back as a datetime; in order of creation time, latest first, and
    strictly so when no two of them carry the same time. *)
Theorem get_analyses_newest_first (svc : Services) (db : Db) (u : string) :
  reachable svc db ->
  exists (l : list document) (stamps : list Datetime.datetime),
    get_analyses u db = (inr l, db) /\
    (length l <= 100)%nat /\
    length l = Nat.min 100 (length (owned_by u (analyses db))) /\
    Forall (fun d => d !! "user_id" = Some (VStr u)) l /\
    Forall (fun d => exists d0 t, d0 ∈ analyses db /\
                                  d0 !! "user_id" = Some (VStr u) /\
                                  stamped d0 t /\
                                  d = <["created_at" := VDatetime t]> d0) l /\
    Forall2 (fun d t => d !! "created_at" = Some (VDatetime t)) l stamps /\
    StronglySorted not_before stamps /\
    (NoDup stamps -> StronglySorted after stamps).
Proof.
  intros Hreach.
  set (found := owned_by u (analyses db)).
  set (page := take 100 (sort_desc found)).
  assert (Hfound : Forall (fun d => d ∈ analyses db /\ d !! "user_id" = Some (VStr u)
                                    /\ iso_stamped d) found).
  { apply Forall_forall. intros d Hd. apply owned_by_spec in Hd.
    destruct Hd as [Hin Hu]. repeat split; try assumption.
    pose proof (reachable_iso_stamped svc db Hreach) as Hall.
    rewrite Forall_forall in Hall. now apply Hall. }
  assert (Hpage : Forall (fun d => d ∈ analyses db /\ d !! "user_id" = Some (VStr u)
                                   /\ iso_stamped d) page).
  { apply Forall_take. now rewrite sort_desc_perm. }
  destruct (iso_stamped_all page) as [stamps Hst].
  { eapply Forall_impl; [exact Hpage|]. now intros d (_ & _ & H). }
  exists (zip_with (fun d t => <["created_at" := VDatetime t]> d) page stamps), stamps.
  assert (Hlen : length stamps = length page) by (symmetry; eapply Forall2_length; eauto).
  assert (Hsorted : StronglySorted not_before stamps).
  { apply Sorted_StronglySorted; [apply not_before_trans|].
    eapply sorted_stamps; [exact Hst|]. apply Sorted_take, sort_desc_sorted. }
  split; [rewrite get_analyses_run; fold found; fold page;
          now rewrite (for_each_stamped page stamps Hst)|].
  rewrite length_zip_with, Hlen, Nat.min_id.
  assert (Hpl : length page = Nat.min 100 (length found)).
  { unfold page. rewrite length_take. now rewrite sort_desc_perm. }
  split; [lia|]. split; [exact Hpl|].
  clear Hlen Hsorted Hpl.
  split; [|split; [|split; [|split]]].
  - induction Hst as [|d t l ts Hd Hl IH]; simpl; [constructor|].
    apply Forall_cons in Hpage. destruct Hpage as [(_ & Hu & _) Hpage].
    constructor; [now rewrite lookup_insert_ne | now apply IH].
  - induction Hst as [|d t l ts Hd Hl IH]; simpl; [constructor|].
    apply Forall_cons in Hpage. destruct Hpage as [(Hin & Hu & _) Hpage].
    constructor; [exists d, t; auto | now apply IH].
  - clear Hpage. induction Hst as [|d t l ts Hd Hl IH]; simpl; constructor;
      [apply lookup_insert_eq | exact IH].
  - apply Sorted_StronglySorted; [apply not_before_trans|].
    eapply sorted_stamps; [exact Hst|]. apply Sorted_take, sort_desc_sorted.
  - apply strictly_sorted_stamps.
    apply Sorted_StronglySorted; [apply not_before_trans|].
    eapply sorted_stamps; [exact Hst|]. apply Sorted_take, sort_desc_sorted.
Qed.

Lemma stub_clocks_valid :
  Datetime.valid Stub.at_2024_03_09 /\ Datetime.valid Stub.at_2024_03_10.
Proof. unfold Datetime.valid. simpl. lia. Qed.

Lemma stub_store_reachable :
  reachable (Stub.services (inr "Elevated; moderate risk overall."))
            Stub.after_image_analysis.
Proof.
  unfold Stub.after_image_analysis, Stub.after_risk_assessment.
  apply reach_exec; [apply reach_exec; [apply reach_empty|] |];
    apply stub_clocks_valid.
Defined.

Lemma get_analyses_newest_first_witness :
  reachable (Stub.services (inr "Elevated; moderate risk overall."))
            Stub.after_image_analysis /\
  exists l, get_analyses "u1" Stub.after_image_analysis
            = (inr l, Stub.after_image_analysis) /\ (length l <= 100)%nat.
Proof.
  split; [exact stub_store_reachable|].
  destruct (get_analyses_newest_first _ _ "u1" stub_store_reachable)
    as (l & stamps & Hrun & Hlen & _).
  exists l. split; assumption.
Defined.

Example get_analyses_latest_first :
  match fst (get_analyses "u1" Stub.after_image_analysis) with
  | inr l =>
      (fun d => (d !! "analysis_type", d !! "created_at")) <$> l
      = [(Some (VStr "image"), Some (VDatetime Stub.at_2024_03_10));
         (Some (VStr "risk_assessment"), Some (VDatetime Stub.at_2024_03_09))]
  | inl _ => False
  end.
Proof. vm_compute. reflexivity. Qed.

(** Two analyses stamped with one instant are both listed, next to each
    other: the order among them is not strict. *)
Example get_analyses_same_instant :
  match fst (get_analyses "u1" Stub.after_same_instant) with
  | inr l =>
      (fun d => d !! "created_at") <$> l
      = [Some (VDatetime Stub.at_2024_03_10);
         Some (VDatetime Stub.at_2024_03_10);
         Some (VDatetime Stub.at_2024_03_09)]
  | inl _ => False
  end.
Proof. vm_compute. reflexivity. Qed.

(** The order of [get_analyses] is not strict: on a store the service
    reaches by serving two image analyses at one instant, both records are
    returned and neither creation time is after the other. *)
Lemma get_analyses_tie_not_strict :
  let svc := Stub.services (inr "No abnormality; low risk.") in
  let db := Stub.twice_at_one_instant in
  let stamps := [Stub.at_2024_03_10; Stub.at_2024_03_10] in
  reachable svc db /\
  match fst (get_analyses "u1" db) with
  | inr l => (fun d => d !! "created_at") <$> l = (fun t => Some (VDatetime t)) <$> stamps
  | inl _ => False
  end /\
  ~ StronglySorted after stamps.
Proof.
  intros svc db stamps. split; [|split].
  - unfold db, Stub.twice_at_one_instant.
    apply reach_exec; [apply reach_exec; [apply reach_empty|] |];
      apply stub_clocks_valid.
  - vm_compute. reflexivity.
  - intros Hs. apply StronglySorted_inv in Hs. destruct Hs as [_ Hall].
    apply Forall_cons in Hall. destruct Hall as [Hlt _]. discriminate Hlt.
Qed.

Lemma one_history_per_user_witness :
  let w1 := Stub.world Stub.at_2024_03_09 in
  let w2 := Stub.world Stub.at_2024_03_10 in
  let db1 := snd (create_medical_history w1 Stub.first_history "u1" empty_db) in
  let db2 := snd (create_medical_history w2 Stub.second_history "u1" db1) in
  owned_by "u1" (medical_history db2)
  = [history_doc (new_history w2 Stub.second_history "u1")].
Proof.
  intros w1 w2 db1 db2.
  exact (proj1 (proj2 (proj2 (one_history_per_user (Stub.services (inr ""))))
                  w1 w2 Stub.first_history Stub.second_history "u1" empty_db
                  eq_refl eq_refl)).
Defined.

Example second_create_replaces :
  let w1 := Stub.world Stub.at_2024_03_09 in
  let w2 := Stub.world Stub.at_2024_03_10 in
  let db1 := snd (create_medical_history w1 Stub.first_history "u1" empty_db) in
  let db2 := snd (create_medical_history w2 Stub.second_history "u1" db1) in
  (fun d => (d !! "age", d !! "breast_density", d !! "created_at"))
    <$> medical_history db2
  = [(Some (VInt 36), Some (VStr "dense"), Some (VStr "2024-03-10T18:30:12+00:00"))].
Proof. vm_compute. reflexivity. Qed.

(** *** The level the risk route returns *)

(** C1.  The score [risk_assessment] computes is the additive reference
    schedule, with an age contribution that is one of 0, 1, 2, 3 (exactly
    one bracket applies); the level is "high" iff the score is at least 8,
    "moderate" iff it is in [4, 8) and "low" iff it is below 4; and that
    level is the [risk_level] of the body the handler returns. *)
Theorem risk_score_is_schedule (svc : Services) (w : World)
    (data : RiskAssessmentRequest.t) (u : string) (db : Db) :
  Risk.risk_score data = Risk.schedule_score data /\
  Risk.age_points (RiskAssessmentRequest.age data) ∈ [0; 1; 2; 3] /\
  (Risk.risk_level data = "high" <-> 8 <= Risk.risk_score data) /\
  (Risk.risk_level data = "moderate" <-> 4 <= Risk.risk_score data < 8) /\
  (Risk.risk_level data = "low" <-> Risk.risk_score data < 4) /\
  match fst (risk_assessment svc w data u db) with
  | inr body => body !! "risk_level" = Some (VStr (Risk.risk_level data))
  | inl _ => True
  end.
Proof.
  split; [apply RiskFacts.risk_score_schedule|].
  split; [apply RiskFacts.age_points_range|].
  destruct (RiskFacts.risk_level_of_cases (Risk.risk_score data)) as (Hh & Hm & Hl).
  split; [exact Hh|]. split; [exact Hm|]. split; [exact Hl|].
  rewrite risk_assessment_run.
  destruct (send_message svc _) as [e|reply]; simpl; [exact I|].
  destruct (store_fault w); simpl; [exact I|].
  now rewrite model_dump_fields.
Qed.

Example risk_assessment_returns_high :
  let svc := Stub.services (inr "Narrative.") in
  let w := Stub.world Stub.at_2024_03_09 in
  match fst (risk_assessment svc w Stub.risk_request "u1" empty_db) with
  | inr body =>
      body !! "risk_level" = Some (VStr "high") /\
      body !! "recommendations"
      = Some (VList ["Consult with an oncologist immediately";
                     "Consider genetic testing";
                     "Schedule annual mammogram screening";
                     "Perform monthly self-examinations";
                     "Maintain a healthy lifestyle";
                     "Discuss results with your healthcare provider"])
  | inl _ => False
  end.
Proof. vm_compute. split; reflexivity. Qed.

End ServerFacts.

(** * Further properties of the handlers *)

Module AccountFacts.
Import Py PyFacts Server ServerFacts Account.

Lemma register_run (svc : Services) (w : World) (user_data : UserCreate.t) db :
  register svc w user_data db =
  match head (filter (fun d => matches "email" (VStr (UserCreate.email user_data)) d = true)
                     (users db)) with
  | Some _ => (inl (HTTPException 400 "Email already registered"), db)
  | None =>
      match store_fault w with
      | Some msg => (inl (Error msg), db)
      | None =>
          (inr (mkAuthResponse
                  (create_token svc w (uuid4 w 0) (UserCreate.email user_data))
                  (User.model_dump (new_user w user_data))),
           mkDb (users db ++ [user_doc svc w user_data])
                (medical_history db) (analyses db))
      end
  end.
Proof.
  unfold register, bind, find_one, insert_one, raise, ret. simpl.
  destruct (head _); [reflexivity|]. simpl.
  destruct (store_fault w); reflexivity.
Qed.

Lemma user_doc_lookup (svc : Services) (w : World) user_data k :
  user_doc svc w user_data !! k =
  if decide (k = "password")
  then Some (VStr (pwd_hash svc (salt w) (UserCreate.password user_data)))
  else if decide (k = "created_at") then Some (VStr (Datetime.isoformat (now w)))
  else User.model_dump (new_user w user_data) !! k.
Proof.
  unfold user_doc, hash_password. rewrite !lookup_insert.
  destruct (decide (k = "password")), (decide ("password" = k)); try congruence;
    destruct (decide (k = "created_at")), (decide ("created_at" = k)); congruence.
Qed.

Lemma user_dump_lookup (u : User.t) k :
  User.model_dump u !! k =
  if decide (k = "id") then Some (VStr (User.id u))
  else if decide (k = "email") then Some (VStr (User.email u))
  else if decide (k = "full_name") then Some (VStr (User.full_name u))
  else if decide (k = "created_at") then Some (VDatetime (User.created_at u))
  else None.
Proof.
  unfold User.model_dump.
  repeat (rewrite lookup_insert; case_decide; [subst; simpl; reflexivity|];
          destruct (decide (k = _)); [congruence|]).
  apply lookup_empty.
Qed.

Lemma no_match_head field v (l : list document) :
  (forall d, d ∈ l -> d !! field <> Some v) ->
  head (filter (fun d => matches field v d = true) l) = None.
Proof.
  intros H. apply head_filter_None. intros d Hd Hm.
  apply matches_true in Hm. now apply (H d).
Qed.

Lemma head_filter_snoc field v (l : list document) (x : document) :
  (forall d, d ∈ l -> d !! field <> Some v) ->
  x !! field = Some v ->
  head (filter (fun d => matches field v d = true) (l ++ [x])%list) = Some x.
Proof.
  intros Hl Hx. rewrite filter_app.
  assert (E : filter (fun d => matches field v d = true) l = []).
  { pose proof (no_match_head field v l Hl) as H.
    now destruct (filter _ l). }
  rewrite E. simpl. rewrite filter_cons.
  destruct (decide _) as [_|Hn]; [reflexivity|].
  exfalso. apply Hn. now apply matches_true.
Qed.



(** *** The user collection over a run *)

Lemma serve_keeps_users (svc : Services) (w : World) tok r db :
  users (snd (serve svc w tok r db)) = users db.
Proof.
  unfold serve.
  destruct (get_current_user_outcome svc w tok db) as [[e H]|[u H]];
    destruct r; unfold protected, bind; rewrite H; simpl; try reflexivity;
    unfold fmap_reply, bind.
  - destruct (get_me u db) as [[?|?] db1] eqn:E;
      pose proof (get_me_keeps u db) as K; rewrite E in K; simpl in *; now subst.
  - rewrite create_medical_history_run. cbv zeta.
    destruct (store_fault w); reflexivity.
  - rewrite analyze_image_run.
    destruct (png_of svc file) as [?|png]; simpl; [reflexivity|].
    destruct (send_message svc _) as [?|reply]; simpl; [reflexivity|].
    destruct (store_fault w); reflexivity.
  - rewrite risk_assessment_run.
    destruct (send_message svc _) as [?|reply]; simpl; [reflexivity|].
    destruct (store_fault w); reflexivity.
  - destruct (get_analyses u db) as [[?|?] db1] eqn:E;
      pose proof (get_analyses_keeps u db) as K; rewrite E in K; simpl in *; now subst.
Qed.

(** Only a registration adds a user, and only under an email no stored
    user has. *)
Lemma exec_users (svc : Services) (w : World) (c : call) db :
  users (exec svc w c db) = users db \/
  exists user_data,
    (forall d, d ∈ users db ->
               d !! "email" <> Some (VStr (UserCreate.email user_data))) /\
    users (exec svc w c db) = (users db ++ [user_doc svc w user_data])%list.
Proof.
  destruct c as [user_data|credentials|tok r]; simpl.
  - rewrite register_run.
    destruct (head _) as [d|] eqn:E; [now left|].
    destruct (store_fault w); [now left|]. right. exists user_data.
    split; [|reflexivity].
    intros d Hd Hm.
    destruct (head_filter_Some
                (fun d => matches "email" (VStr (UserCreate.email user_data)) d = true)
                (users db) d Hd) as (y & Hy & _); [now apply matches_true|].
    congruence.
  - rewrite login_keeps. now left.
  - left. apply serve_keeps_users.
Qed.

(** X2.  In every store the service can reach, no two user documents carry
    the same email, and every user document has one. *)
Theorem reachable_emails_unique (svc : Services) (db : Db) :
  reachable svc db ->
  NoDup (emails (users db)) /\
  Forall (fun d => exists e, d !! "email" = Some (VStr e)) (users db).
Proof.
  induction 1 as [|db w c Hreach [IHnd IHall] Hclock].
  - split; constructor.
  - destruct (exec_users svc w c db) as [-> | (user_data & Hfresh & ->)];
      [now split|].
    split.
    + unfold emails. rewrite fmap_app. apply NoDup_app. split; [exact IHnd|].
      split; [|simpl; apply NoDup_singleton].
      intros e He Hin. apply list_elem_of_fmap in He. destruct He as (d & -> & Hd).
      simpl in Hin. apply list_elem_of_singleton in Hin.
      rewrite user_doc_lookup in Hin. simpl in Hin.
      now apply (Hfresh d Hd).
    + apply Forall_app. split; [exact IHall|].
      constructor; [|constructor].
      exists (UserCreate.email user_data). now rewrite user_doc_lookup.
Qed.

Lemma reachable_emails_unique_witness :
  let svc := Stub.services (inr "") in
  let w := Stub.world Stub.at_2024_03_09 in
  let alice := UserCreate.mk "alice@example.com" "Alice" "correct horse" in
  let db := exec svc w (Register alice) (exec svc w (Register alice) empty_db) in
  reachable svc db /\ NoDup (emails (users db)).
Proof.
  intros svc w alice db.
  assert (R : reachable svc db).
  { unfold db. apply reach_exec; [apply reach_exec; [apply reach_empty|] |];
      apply stub_clocks_valid. }
  split; [exact R | exact (proj1 (reachable_emails_unique svc db R))].
Defined.

Example second_register_adds_nothing :
  let svc := Stub.services (inr "") in
  let w := Stub.world Stub.at_2024_03_09 in
  let alice := UserCreate.mk "alice@example.com" "Alice" "correct horse" in
  emails (users (exec svc w (Register alice) (exec svc w (Register alice) empty_db)))
  = [Some (VStr "alice@example.com")].
Proof. vm_compute. reflexivity. Qed.

(** *** Logging in with what was registered *)

Lemma item_str_user_doc (svc : Services) (w : World) user_data :
  item_str (user_doc svc w user_data) "id" = inr (uuid4 w 0) /\
  item_str (user_doc svc w user_data) "email" = inr (UserCreate.email user_data) /\
  item_str (user_doc svc w user_data) "full_name"
  = inr (UserCreate.full_name user_data).
Proof.
  unfold item_str. rewrite !user_doc_lookup. simpl.
  rewrite !user_dump_lookup. simpl. auto.
Qed.

Lemma created_at_user_doc (svc : Services) (w : World) user_data :
  Datetime.valid (now w) ->
  created_at_value (user_doc svc w user_data) = inr (now w).
Proof.
  intros Hv. unfold created_at_value.
  assert (E : user_doc svc w user_data !! "created_at"
              = Some (VStr (Datetime.isoformat (now w))))
    by (rewrite user_doc_lookup; reflexivity).
  rewrite E, DatetimeFacts.fromisoformat_isoformat by exact Hv. reflexivity.
Qed.

(** X3.  After a registration that succeeded, [login] with the same email
    and password succeeds whenever the hashing library verifies a password
    against its own hash: it leaves the store as it is, issues a token for
    the registered id, and returns exactly the user record that [register]
    returned, the creation time read back from its stored ISO text. *)
Theorem login_after_register (svc : Services) (w w' : World)
    (user_data : UserCreate.t) (db : Db) :
  (forall d, d ∈ users db ->
             d !! "email" <> Some (VStr (UserCreate.email user_data))) ->
  store_fault w = None ->
  Datetime.valid (now w) ->
  pwd_verify svc (UserCreate.password user_data)
             (pwd_hash svc (salt w) (UserCreate.password user_data)) = true ->
  let registered := register svc w user_data db in
  let credentials :=
    UserLogin.mk (UserCreate.email user_data) (UserCreate.password user_data) in
  exists response,
    fst (login svc w' credentials (snd registered)) = inr response /\
    snd (login svc w' credentials (snd registered)) = snd registered /\
    token response = create_token svc w' (uuid4 w 0) (UserCreate.email user_data) /\
    (exists first, fst registered = inr first /\ user response = user first).
Proof.
  intros Hfresh Hw Hvalid Hverify registered credentials.
  subst registered. rewrite register_run, no_match_head, Hw by exact Hfresh.
  cbn [fst snd].
  destruct (item_str_user_doc svc w user_data) as (Hid & Hemail & Hname).
  eexists. split; [|split; [apply login_keeps|]].
  - unfold login. unfold bind at 1. unfold find_one at 1. cbn [coll users].
    unfold credentials. cbn [UserLogin.email UserLogin.password].
    rewrite head_filter_snoc;
      [| exact Hfresh | now rewrite user_doc_lookup].
    assert (Epw : user_doc svc w user_data !! "password"
                  = Some (VStr (pwd_hash svc (salt w) (UserCreate.password user_data))))
      by (rewrite user_doc_lookup; reflexivity).
    rewrite bind_lift, Epw. unfold verify_password. rewrite Hverify.
    cbn [negb].
    rewrite bind_lift, Hid, bind_lift, Hemail, bind_lift, Hname, bind_lift,
      created_at_user_doc by exact Hvalid.
    reflexivity.
  - split; [reflexivity|]. eexists. split; reflexivity.
Qed.

Lemma login_after_register_witness :
  let svc := Stub.services (inr "") in
  let w := Stub.world Stub.at_2024_03_09 in
  let w' := Stub.world Stub.at_2024_03_10 in
  let alice := UserCreate.mk "alice@example.com" "Alice" "correct horse" in
  exists response,
    fst (login svc w' (UserLogin.mk "alice@example.com" "correct horse")
               (snd (register svc w alice empty_db))) = inr response.
Proof.
  intros svc w w' alice.
  destruct (login_after_register svc w w' alice empty_db)
    as (response & Hrun & _).
  - intros d Hd. inversion Hd.
  - reflexivity.
  - apply stub_clocks_valid.
  - reflexivity.
  - exists response. exact Hrun.
Defined.

(** *** The route of the current user *)

Lemma get_me_run u db :
  get_me u db =
  match head (filter (fun d => matches "id" (VStr u) d = true) (users db)) with
  | None => (inl (HTTPException 404 "User not found"), db)
  | Some user_doc => (inr (delete "password" user_doc), db)
  end.
Proof.
  unfold get_me, bind, find_one, raise, ret. simpl. now destruct (head _).
Qed.

(** X4.  [get_me] answers 404 exactly when no stored user has the id; when
    it answers, the body is a stored document of that id with its
    [password] field removed and every other field as stored; the store is
    never changed. *)
Theorem get_me_hides_password (u : string) (db : Db) :
  snd (get_me u db) = db /\
  (fst (get_me u db) = inl (HTTPException 404 "User not found") <->
   forall d, d ∈ users db -> d !! "id" <> Some (VStr u)) /\
  match fst (get_me u db) with
  | inr body =>
      body !! "password" = None /\
      body !! "id" = Some (VStr u) /\
      exists d, d ∈ users db /\
                forall k, k <> "password" -> body !! k = d !! k
  | inl e => e = HTTPException 404 "User not found"
  end.
Proof.
  split; [apply get_me_keeps|].
  rewrite get_me_run.
  destruct (head _) as [d|] eqn:E; simpl.
  - assert (Hd : d ∈ filter (fun d => matches "id" (VStr u) d = true) (users db)).
    { destruct (filter _ _) as [|x l]; [discriminate|].
      simpl in E. injection E as ->. left. }
    apply list_elem_of_filter in Hd. destruct Hd as [Hm Hin].
    apply matches_true in Hm.
    split.
    + split; [discriminate|]. intros Hnone. now apply (Hnone d) in Hin.
    + split; [apply lookup_delete_eq|].
      split; [now rewrite lookup_delete_ne|].
      exists d. split; [exact Hin|]. intros k Hk. now apply lookup_delete_ne.
  - split; [|reflexivity]. split; [|reflexivity].
    intros _ d Hd Hm.
    destruct (head_filter_Some (fun d => matches "id" (VStr u) d = true)
                (users db) d Hd) as (y & Hy & _); [now apply matches_true|].
    congruence.
Qed.

(** X5.  After a registration that succeeded, under an id no earlier user
    has, [get_me] for the new id returns what the response encoder makes of
    the user record that [register] returned: the same fields, the creation
    time as its ISO text, and no password. *)
Theorem get_me_after_register (svc : Services) (w : World)
    (user_data : UserCreate.t) (db : Db) :
  (forall d, d ∈ users db ->
             d !! "email" <> Some (VStr (UserCreate.email user_data))) ->
  (forall d, d ∈ users db -> d !! "id" <> Some (VStr (uuid4 w 0))) ->
  store_fault w = None ->
  exists first,
    fst (register svc w user_data db) = inr first /\
    fst (get_me (uuid4 w 0) (snd (register svc w user_data db)))
    = inr (jsonable_encoder (user first)).
Proof.
  intros Hmail Hid Hw.
  rewrite register_run, no_match_head, Hw by exact Hmail. cbn [fst snd].
  eexists. split; [reflexivity|]. cbn [user].
  rewrite get_me_run. cbn [users].
  rewrite head_filter_snoc; [| exact Hid |].
  - reflexivity.
  - rewrite user_doc_lookup. reflexivity.
Qed.

Lemma get_me_after_register_witness :
  let svc := Stub.services (inr "") in
  let w := Stub.world Stub.at_2024_03_09 in
  let alice := UserCreate.mk "alice@example.com" "Alice" "correct horse" in
  exists first,
    fst (register svc w alice empty_db) = inr first /\
    fst (get_me "6f1c" (snd (register svc w alice empty_db)))
    = inr (jsonable_encoder (user first)).
Proof.
  intros svc w alice.
  apply (get_me_after_register svc w alice empty_db).
  - intros d Hd. inversion Hd.
  - intros d Hd. inversion Hd.
  - reflexivity.
Defined.

End AccountFacts.

Module HistoryFacts.
Import Py PyFacts Server ServerFacts.

Lemma get_medical_history_run u db :
  get_medical_history u db = (inr (head (owned_by u (medical_history db))), db).
Proof. reflexivity. Qed.

(** X6.  [get_medical_history] never fails and never writes: on every
    store and for every user it returns the first stored history of that
    user, or nothing when the user has none, and leaves the store exactly
    as it was.  Right after a create that the store accepted it returns the
    document just written, and the create changes what no other user gets
    back. *)
Theorem history_lookup_after_create (w : World)
    (data : MedicalHistoryCreate.t) (u : string) (db : Db) :
  store_fault w = None ->
  let db' := snd (create_medical_history w data u db) in
  get_medical_history u db' = (inr (Some (history_doc (new_history w data u))), db') /\
  (forall other, other <> u ->
     get_medical_history other db' = (fst (get_medical_history other db), db')) /\
  (owned_by u (medical_history db) = [] ->
     get_medical_history u db = (inr None, db)) /\
  (forall (who : string) (store : Db),
     get_medical_history who store
     = (inr (head (owned_by who (medical_history store))), store)) /\
  (forall (who : string) (store : Db),
     owned_by who (medical_history store) = [] ->
     get_medical_history who store = (inr None, store)).
Proof.
  intros Hw db'. subst db'.
  rewrite create_medical_history_run. cbv zeta. rewrite Hw. cbn [snd].
  split; [|split; [|split; [|split]]].
  - rewrite get_medical_history_run. cbn [medical_history].
    rewrite owned_by_app, owned_by_after_delete, owned_by_history_doc.
    destruct (decide (u = u)); [reflexivity | contradiction].
  - intros other Hne. rewrite !get_medical_history_run. cbn [medical_history fst].
    rewrite owned_by_app, owned_by_after_delete, owned_by_history_doc.
    destruct (decide (other = u)); [contradiction|]. now rewrite app_nil_r.
  - intros E. now rewrite get_medical_history_run, E.
  - intros who store. apply get_medical_history_run.
  - intros who store E. now rewrite get_medical_history_run, E.
Qed.

Lemma history_lookup_after_create_witness :
  let w := Stub.world Stub.at_2024_03_09 in
  let db' := snd (create_medical_history w Stub.first_history "u1" empty_db) in
  get_medical_history "u1" db'
  = (inr (Some (history_doc (new_history w Stub.first_history "u1"))), db').
Proof.
  intros w db'.
  exact (proj1 (history_lookup_after_create w Stub.first_history "u1" empty_db
                  eq_refl)).
Defined.

(** X7.  The replace of [create_medical_history] is not undone when the
    write fails: the handler raises the store's error, and the user is left
    with no history at all, whatever was stored before; the histories of
    the other users and the other collections are as they were. *)
Theorem failed_create_loses_history (w : World)
    (data : MedicalHistoryCreate.t) (u msg : string) (db : Db) :
  store_fault w = Some msg ->
  let out := create_medical_history w data u db in
  fst out = inl (Error msg) /\
  owned_by u (medical_history (snd out)) = [] /\
  (forall other, other <> u ->
     owned_by other (medical_history (snd out)) = owned_by other (medical_history db)) /\
  users (snd out) = users db /\ analyses (snd out) = analyses db.
Proof.
  intros Hw out. subst out. rewrite create_medical_history_run. cbv zeta.
  rewrite Hw. cbn [fst snd medical_history users analyses].
  split; [reflexivity|]. split; [|split; [|split; reflexivity]].
  - rewrite owned_by_after_delete. destruct (decide (u = u)); [reflexivity | contradiction].
  - intros other Hne. rewrite owned_by_after_delete.
    destruct (decide (other = u)); [contradiction | reflexivity].
Qed.

Lemma failed_create_loses_history_witness :
  let w1 := Stub.world Stub.at_2024_03_09 in
  let w2 := Stub.faulty_world Stub.at_2024_03_10 "connection reset" in
  let db1 := snd (create_medical_history w1 Stub.first_history "u1" empty_db) in
  owned_by "u1" (medical_history db1)
  = [history_doc (new_history w1 Stub.first_history "u1")] /\
  owned_by "u1" (medical_history
                   (snd (create_medical_history w2 Stub.second_history "u1" db1))) = [].
Proof.
  intros w1 w2 db1. split; [reflexivity|].
  exact (proj1 (proj2 (failed_create_loses_history w2 Stub.second_history "u1"
                         "connection reset" db1 eq_refl))).
Defined.

End HistoryFacts.

Module StoreFacts.
Import Py PyFacts Server ServerFacts Account AccountFacts Runs.

Lemma exec_grows (svc : Services) (w : World) (c : call) (db : Db) :
  users db `prefix_of` users (exec svc w c db) /\
  analyses db `prefix_of` analyses (exec svc w c db).
Proof.
  split.
  - destruct (exec_users svc w c db) as [-> | (ud & _ & ->)];
      [reflexivity | now apply prefix_app_r].
  - destruct (exec_effect svc w c db) as [_ [-> | (a & _ & ->)]];
      [reflexivity | now apply prefix_app_r].
Qed.

(** X8.  Users and analyses are append-only: whatever requests are served,
    in whatever order and with whatever outcome, the user collection and
    the analysis collection after them start with what they held before;
    no route removes or rewrites a stored user or analysis. *)
Theorem users_and_analyses_append_only (svc : Services)
    (steps : list (World * call)) (db : Db) :
  users db `prefix_of` users (run svc steps db) /\
  analyses db `prefix_of` analyses (run svc steps db).
Proof.
  revert db. induction steps as [|[w c] steps IH]; intros db; simpl.
  - split; reflexivity.
  - destruct (exec_grows svc w c db) as [Hu Ha].
    destruct (IH (exec svc w c db)) as [Hu' Ha'].
    split; etrans; eassumption.
Qed.

(** X9.  [login] and the three reading routes never change the store,
    whether they answer or fail; and a request whose token
    [get_current_user] refuses fails with that refusal and changes
    nothing, whatever the route. *)
Theorem reading_routes_leave_store (svc : Services) (w : World)
    (token : string) (db : Db) :
  (forall credentials, snd (login svc w credentials db) = db) /\
  (forall r, reads_only r = true -> snd (serve svc w token r db) = db) /\
  (forall r e, fst (get_current_user svc w token db) = inl e ->
               serve svc w token r db = (inl e, db)).
Proof.
  split; [intros; apply login_keeps|]. split.
  - intros r Hr.
    destruct (get_current_user_outcome svc w token db) as [[e H]|[u H]].
    + now rewrite (serve_unauthorized svc w token r db e H).
    + destruct r; try discriminate; unfold serve, protected, bind; rewrite H;
        unfold fmap_reply, bind.
      * destruct (get_me u db) as [[?|?] db1] eqn:E;
          pose proof (get_me_keeps u db) as K; rewrite E in K; simpl in *; now subst.
      * reflexivity.
      * destruct (get_analyses u db) as [[?|?] db1] eqn:E;
          pose proof (get_analyses_keeps u db) as K; rewrite E in K; simpl in *;
          now subst.
  - intros r e He. apply serve_unauthorized.
    destruct (get_current_user_outcome svc w token db) as [[e' H]|[u H]];
      rewrite H in *; simpl in He; congruence.
Qed.

(** X10.  [get_current_user] returns a user id exactly when the token
    decodes to a payload whose [user_id] is that id and is not empty; a
    payload without a [user_id], or with an empty one, is refused with 401
    "Invalid token" although the token decoded; the store is untouched. *)
Theorem get_current_user_needs_user_id (svc : Services) (w : World)
    (token : string) (db : Db) :
  snd (get_current_user svc w token db) = db /\
  (forall u, fst (get_current_user svc w token db) = inr u <->
             exists payload, jwt_decode svc (now w) token = inr payload /\
                             Payload.user_id payload = Some u /\ u <> "") /\
  (forall payload, jwt_decode svc (now w) token = inr payload ->
     Payload.user_id payload = None \/ Payload.user_id payload = Some "" ->
     fst (get_current_user svc w token db) = inl (HTTPException 401 "Invalid token")).
Proof.
  rewrite get_current_user_run.
  destruct (jwt_decode svc (now w) token) as [e|payload].
  - split; [now destruct e|]. split.
    + intros u. split; [destruct e; discriminate | intros (p & Hp & _); discriminate].
    + intros p Hp. discriminate.
  - destruct (Payload.user_id payload) as [u0|] eqn:Eu.
    + destruct (String.eqb_spec u0 "") as [->|Hne]; simpl.
      * split; [reflexivity|]. split.
        -- intros u. split; [discriminate|].
           intros (p & Hp & Hu & Hnz). injection Hp as <-. congruence.
        -- reflexivity.
      * split; [reflexivity|]. split.
        -- intros u. split.
           ++ intros H. injection H as <-. exists payload. auto.
           ++ intros (p & Hp & Hu & Hnz). injection Hp as <-. congruence.
        -- intros p Hp [H|H]; injection Hp as <-; congruence.
    + simpl. split; [reflexivity|]. split.
      * intros u. split; [discriminate|].
        intros (p & Hp & Hu & _). injection Hp as <-. congruence.
      * reflexivity.
Qed.

Example token_without_user_id :
  let svc := mkServices ascii_lower (fun _ p => p) (fun _ _ => true)
               (fun _ => "") (fun _ _ => inr (Payload.mk (Some "") None None))
               (fun _ d => d) (fun b => inr b) (fun _ => inr "") in
  serve svc (Stub.world Stub.at_2024_03_09) "any" GetAnalyses empty_db
  = (inl (HTTPException 401 "Invalid token"), empty_db).
Proof. reflexivity. Qed.

End StoreFacts.
